(** * Araras dashboard: loader, filter engine and aggregations

    A shallow embedding of [Araras.py].  The script is a pandas pipeline:
    it reads one sheet, cleans the [Quantidade] column, narrows the frame
    with three boolean masks and feeds group sums to the charts.

    A DataFrame is a list of rows in frame order; each row carries the
    index label [read_excel] gave it, since [idxmax] and [.loc] work on
    labels.  [Tipo], [Subtipo] and [Locais] are text cells that may be
    missing ([None] is pandas' NaN).  The sheet is the table as
    [read_excel] parsed it: a numeric cell is the exact value of the
    number it holds.  The [Quantidade] column of the Dataset is int64:
    the cast and the sums wrap around at 64 bits.  The text columns are
    object columns, which is what a frame with a record always has. *)

From Stdlib Require Import List String Ascii Bool ZArith QArith Lia.
From Stdlib Require Import Permutation Sorted Orders Mergesort.
Import ListNotations.

Local Open Scope string_scope.
Local Open Scope list_scope.
Local Open Scope Z_scope.

(** ** Values *)

(** A float64 of the [Quantidade] column after [pd.to_numeric]. *)
Inductive float64 : Type :=
| Finite (q : Q)
| Infinite (negative : bool)
| NaN.

(** A cell of the [Quantidade] column as the sheet holds it. *)
Inductive cell : Type :=
| Blank
| Numeric (q : Q)
| Text (s : string).

(** One row of a DataFrame; [A] is the type of the [Quantidade] column at
    that stage of the cleaning. *)
Record row (A : Type) : Type := mkRow {
  index : nat;
  Tipo : option string;
  Subtipo : option string;
  Locais : option string;
  Quantidade : A
}.

Arguments mkRow {A} _ _ _ _ _.
Arguments index {A} _.
Arguments Tipo {A} _.
Arguments Subtipo {A} _.
Arguments Locais {A} _.
Arguments Quantidade {A} _.

Definition DataFrame (A : Type) : Type := list (row A).

(** Replacing the [Quantidade] column: [df["Quantidade"] = f(df["Quantidade"])]. *)
Definition set_Quantidade {A B : Type} (f : A -> B) (r : row A) : row B :=
  mkRow (index r) (Tipo r) (Subtipo r) (Locais r) (f (Quantidade r)).

(** The sheet [Página1] of the workbook as [read_excel] parsed it: its
    header and its data lines (a cell that pandas reads as missing is
    [None] or [Blank]). *)
Record xl_row : Type := mkXl {
  xl_Tipo : option string;
  xl_Subtipo : option string;
  xl_Locais : option string;
  xl_Quantidade : cell
}.

Record sheet : Type := mkSheet {
  columns : list string;
  lines : list xl_row
}.

(** How a run of the script ends: with a value, at [st.stop()] after an
    [st.error], or with an exception nothing catches. *)
Inductive message : Type := NotFound | MissingColumns.
Inductive exn : Type := IntCastingNaNError | ReError.

Inductive outcome (A : Type) : Type :=
| Ok (a : A)
| Stop (m : message)
| Raise (e : exn).

Arguments Ok {A} _.
Arguments Stop {A} _.
Arguments Raise {A} _.

(** ** The loader *)

Definition ARQUIVO_DADOS : string := "Araras.xlsx".

Definition colunas_necessarias : list string :=
  ["Tipo"; "Subtipo"; "Locais"; "Quantidade"].

(** [pd.read_excel]: rows are labelled 0, 1, 2, ... (a RangeIndex). *)
Fixpoint read_rows (i : nat) (l : list xl_row) : DataFrame cell :=
  match l with
  | [] => []
  | x :: l' =>
      mkRow i (xl_Tipo x) (xl_Subtipo x) (xl_Locais x) (xl_Quantidade x)
        :: read_rows (S i) l'
  end.

Definition read_excel (sh : sheet) : DataFrame cell := read_rows 0 (lines sh).

(** int64: a value that leaves the range wraps around. *)
Definition wrap64 (z : Z) : Z := (z + 2 ^ 63) mod 2 ^ 64 - 2 ^ 63.

(** Dropping the fraction of a number (rounding toward 0). *)
Definition Qtruncate (q : Q) : Z := Z.quot (Qnum q) (Z.pos (Qden q)).

(** The cast of a number to int64: the fraction is dropped and the result
    is a 64-bit integer; within the int64 range it is the truncation. *)
Definition Qtrunc (q : Q) : Z := wrap64 (Qtruncate q).

Definition notna (f : float64) : bool :=
  match f with NaN => false | _ => true end.

Definition present (c : option string) : bool :=
  match c with Some _ => true | None => false end.

(** [df.dropna(subset=["Quantidade", "Subtipo", "Locais"])]. *)
Definition dropna (df : DataFrame float64) : DataFrame float64 :=
  filter (fun r => notna (Quantidade r) && present (Subtipo r) && present (Locais r)) df.

(** [astype(int)] on the column: pandas first checks that every value is
    finite and raises [IntCastingNaNError] otherwise. *)
Definition isfinite (f : float64) : bool :=
  match f with Finite _ => true | _ => false end.

Definition to_int (f : float64) : Z :=
  match f with Finite q => Qtrunc q | _ => 0 end.

Definition astype_int (df : DataFrame float64) : outcome (DataFrame Z) :=
  if forallb (fun r => isfinite (Quantidade r)) df
  then Ok (map (set_Quantidade to_int) df)
  else Raise IntCastingNaNError.

Section Loader.

(** pandas' parser of numeric text ([None]: the text is not a number).
    Its grammar belongs to the library; the loader is read for any. *)
Variable floatify : string -> option float64.

(** [pd.to_numeric(..., errors="coerce")] on one cell. *)
Definition to_numeric (c : cell) : float64 :=
  match c with
  | Blank => NaN
  | Numeric q => Finite q
  | Text s => match floatify s with Some f => f | None => NaN end
  end.

(** [carregar_dados]; [None] is a path with no file behind it. *)
Definition carregar_dados (caminho_arquivo : option sheet) : outcome (DataFrame Z) :=
  match caminho_arquivo with
  | None => Stop NotFound
  | Some sh =>
      let df := read_excel sh in
      if negb (forallb (fun coluna => existsb (String.eqb coluna) (columns sh))
                 colunas_necessarias)
      then Stop MissingColumns
      else
        let df := map (set_Quantidade to_numeric) df in
        let df := dropna df in
        astype_int df
  end.

End Loader.

(** ** Series operations the script uses *)

(** [series == s] on a text column: a missing cell equals nothing. *)
Definition eq_text (c : option string) (s : string) : bool :=
  match c with
  | Some t => String.eqb t s
  | None => false
  end.

(** [df[mask]]: the rows where the boolean Series is [True], in frame order. *)
Fixpoint getitem_mask {A : Type} (df : list A) (mask : list bool) : list A :=
  match df, mask with
  | r :: df', b :: mask' =>
      if b then r :: getitem_mask df' mask' else getitem_mask df' mask'
  | _, _ => []
  end.

(** [Series.dropna()] on a text column. *)
Fixpoint dropna_text (l : list (option string)) : list string :=
  match l with
  | [] => []
  | Some s :: l' => s :: dropna_text l'
  | None :: l' => dropna_text l'
  end.

(** [Series.unique()]: the distinct values, each at its first appearance. *)
Fixpoint unique (l : list string) : list string :=
  match l with
  | [] => []
  | x :: l' => x :: filter (fun y => negb (String.eqb y x)) (unique l')
  end.

(** Python's [sorted] on strings compares code points. *)
Module StringOrder <: TotalLeBool.
Definition t : Type := string.
Definition leb : t -> t -> bool := String.leb.
Definition leb_total : forall a b : t, leb a b = true \/ leb b a = true :=
  String.leb_total.
End StringOrder.

Module StringSort := Sort StringOrder.

Definition sorted (l : list string) : list string := StringSort.sort l.

(** The Python regular-expression library, as far as the filter sees it:
    [re.compile(pat, flags=re.IGNORECASE)], which raises [re.error] on a
    malformed pattern ([None]), and [pat.search(x) is not None].  The
    filter engine is read for any such library. *)
Class ReEngine : Type := {
  regex : Type;
  re_compile : string -> option regex;
  re_search : regex -> string -> bool
}.

(** [Series.str.contains(pat, case=False, na=False)] on a text (object)
    column.  pandas' default is [regex=True]: the pattern is compiled
    once, then searched in each cell; a missing cell gives [na], that is
    [False].  A frame has a text [Locais] column as soon as one of its
    records, or of the Dataset it was filtered from, has a location; on
    the float column of a sheet whose [Locais] cells are all blank the
    accessor itself raises, and the statements below that promise a
    result ask for a text column. *)
Definition str_contains {E : ReEngine} (pat : string) (col : list (option string))
  : outcome (list bool) :=
  match re_compile pat with
  | None => Raise ReError
  | Some p =>
      Ok (map (fun x => match x with Some s => re_search p s | None => false end) col)
  end.

(** ** Sidebar and filter engine *)

Record FilterState : Type := mkFilter {
  tipo_opcao : string;
  subtipo_opcao : string;
  busca_local : string
}.

(** [sorted(df["Tipo"].dropna().unique())] *)
Definition tipo_unico (df : DataFrame Z) : list string :=
  sorted (unique (dropna_text (map Tipo df))).

(** The options of the first select box. *)
Definition tipo_opcoes (df : DataFrame Z) : list string := "Todos" :: tipo_unico df.

Definition subtipo_lista (df : DataFrame Z) (tipo : string) : list string :=
  if negb (String.eqb tipo "Todos")
  then sorted (unique (dropna_text (map Subtipo
         (getitem_mask df (map (fun r => eq_text (Tipo r) tipo) df)))))
  else sorted (unique (dropna_text (map Subtipo df))).

(** Python truth of a string: it is not empty. *)
Definition truthy (s : string) : bool := negb (String.eqb s "").

Definition df_filtrado {E : ReEngine} (df : DataFrame Z) (fs : FilterState)
  : outcome (DataFrame Z) :=
  let df_filtrado := df in
  let df_filtrado :=
    if negb (String.eqb (tipo_opcao fs) "Todos")
    then getitem_mask df_filtrado
           (map (fun r => eq_text (Tipo r) (tipo_opcao fs)) df_filtrado)
    else df_filtrado in
  let df_filtrado :=
    if negb (String.eqb (subtipo_opcao fs) "Todos")
    then getitem_mask df_filtrado
           (map (fun r => eq_text (Subtipo r) (subtipo_opcao fs)) df_filtrado)
    else df_filtrado in
  if truthy (busca_local fs)
  then match str_contains (busca_local fs) (map Locais df_filtrado) with
       | Ok mask => Ok (getitem_mask df_filtrado mask)
       | Stop m => Stop m
       | Raise e => Raise e
       end
  else Ok df_filtrado.

(** The three predicates of the filter contract, for a compiled search. *)
Definition category_ok (fs : FilterState) (r : row Z) : bool :=
  String.eqb (tipo_opcao fs) "Todos" || eq_text (Tipo r) (tipo_opcao fs).

Definition subcategory_ok (fs : FilterState) (r : row Z) : bool :=
  String.eqb (subtipo_opcao fs) "Todos" || eq_text (Subtipo r) (subtipo_opcao fs).

Definition search_ok (fs : FilterState) (found : string -> bool) (r : row Z) : bool :=
  String.eqb (busca_local fs) "" ||
  match Locais r with Some s => found s | None => false end.

Definition satisfies (fs : FilterState) (found : string -> bool) (r : row Z) : bool :=
  category_ok fs r && subcategory_ok fs r && search_ok fs found r.

(** What the compiled search term finds; for the empty term the search is
    skipped and the choice is immaterial. *)
Definition finder {E : ReEngine} (term : string) : option (string -> bool) :=
  if truthy term
  then match re_compile term with
       | Some p => Some (re_search p)
       | None => None
       end
  else Some (fun _ => true).

(** ** A fragment of the pattern language

    Ordinary characters and the dot, which is what the search term is
    examined on.  With [re.IGNORECASE] a letter of the pattern matches
    either case (ASCII letters here); the dot matches all but a newline.
    A pattern with another special character gets no compiled form
    here.  For a malformed one, such as an unmatched parenthesis, that
    is Python's [re.error]; the well-formed ones (alternation,
    repetition, classes) are not covered and no statement is made about
    them. *)

Definition lower (c : ascii) : ascii :=
  let n := N_of_ascii c in
  if ((65 <=? n) && (n <=? 90))%N then ascii_of_N (n + 32) else c.

Fixpoint lower_str (s : string) : string :=
  match s with
  | EmptyString => EmptyString
  | String c s' => String (lower c) (lower_str s')
  end.

Definition special_chars : list ascii :=
  list_ascii_of_string ".^$*+?{}[]\|()".

Definition is_special (c : ascii) : bool := existsb (Ascii.eqb c) special_chars.

Inductive atom : Type :=
| Lit (c : ascii)
| Dot.

Definition newline : ascii := ascii_of_N 10.

Definition atom_matches (a : atom) (c : ascii) : bool :=
  match a with
  | Lit l => Ascii.eqb (lower c) l
  | Dot => negb (Ascii.eqb c newline)
  end.

Fixpoint compile_atoms (pat : string) : option (list atom) :=
  match pat with
  | EmptyString => Some []
  | String c pat' =>
      match (if Ascii.eqb c "." then Some Dot
             else if is_special c then None
             else Some (Lit (lower c))), compile_atoms pat' with
      | Some a, Some p => Some (a :: p)
      | _, _ => None
      end
  end.

(** [p] matches at the start of [s]. *)
Fixpoint match_here (p : list atom) (s : string) : bool :=
  match p, s with
  | [], _ => true
  | a :: p', String c s' => atom_matches a c && match_here p' s'
  | _ :: _, EmptyString => false
  end.

(** [p] matches somewhere in [s]. *)
Fixpoint search_atoms (p : list atom) (s : string) : bool :=
  match_here p s ||
  match s with
  | EmptyString => false
  | String _ s' => search_atoms p s'
  end.

#[export] Instance fragment : ReEngine := {|
  regex := list atom;
  re_compile := compile_atoms;
  re_search := search_atoms
|}.


Definition no_special (term : string) : Prop :=
  forall c, In c (list_ascii_of_string term) -> is_special c = false.

(** ** Aggregations *)

(** int64 arithmetic: a sum that leaves the range wraps around. *)
Definition int64_add (a b : Z) : Z := wrap64 (a + b).

Definition sum_int64 (l : list Z) : Z := fold_left int64_add l 0.

(** [int(df_filtrado["Quantidade"].sum())] *)
Definition total_cameras (df : DataFrame Z) : Z := sum_int64 (map Quantidade df).

(** [df_filtrado["Locais"].nunique()] *)
Definition total_locais (df : DataFrame Z) : nat :=
  List.length (unique (dropna_text (map Locais df))).

(** A Series of integers: label and value, in order. *)
Definition Series : Type := list (nat * Z).

Definition column_Quantidade (df : DataFrame Z) : Series :=
  map (fun r => (index r, Quantidade r)) df.

(** [Series.idxmax()]: the label at the first position of the maximum. *)
Fixpoint idxmax_from (best : nat * Z) (s : Series) : nat :=
  match s with
  | [] => fst best
  | x :: s' => if snd best <? snd x then idxmax_from x s' else idxmax_from best s'
  end.

Definition idxmax (s : Series) : option nat :=
  match s with
  | [] => None
  | x :: s' => Some (idxmax_from x s')
  end.

(** [df.loc[label]] for a label that names one row. *)
Definition loc (df : DataFrame Z) (label : nat) : option (row Z) :=
  find (fun r => Nat.eqb (index r) label) df.

(** [df_filtrado.loc[df_filtrado["Quantidade"].idxmax()]]; the script
    evaluates it only when the frame is not empty. *)
Definition maior_linha (df : DataFrame Z) : option (row Z) :=
  match idxmax (column_Quantidade df) with
  | Some label => loc df label
  | None => None
  end.

(** [df.groupby(key)["Quantidade"].sum()] with pandas' defaults
    [sort=True] and [dropna=True]: one line per distinct present key,
    keys in ascending order. *)
Definition group_sum (key : row Z -> option string) (df : DataFrame Z) (k : string) : Z :=
  sum_int64 (map Quantidade (filter (fun r => eq_text (key r) k) df)).

Definition groupby_sum (key : row Z -> option string) (df : DataFrame Z)
  : list (string * Z) :=
  map (fun k => (k, group_sum key df k)) (sorted (unique (dropna_text (map key df)))).

(** [sort_values("Quantidade", ascending=False)]: larger sums first.
    numpy's default sort leaves the order of equal sums open; merge sort
    stands for it here. *)
Lemma descending_total (a b : string * Z) :
  (snd b <=? snd a) = true \/ (snd a <=? snd b) = true.
Proof. rewrite !Z.leb_le. lia. Qed.

Module SumDescending <: TotalLeBool.
Definition t : Type := (string * Z)%type.
Definition leb (a b : t) : bool := snd b <=? snd a.
Definition leb_total : forall a b : t, leb a b = true \/ leb b a = true :=
  descending_total.
End SumDescending.

Module SumSort := Sort SumDescending.

Definition sort_values_desc (l : list (string * Z)) : list (string * Z) :=
  SumSort.sort l.

Definition top_n : nat := 10.

(** [df_locais.head(top_n)] of the sorted sums by [Locais]. *)
Definition df_locais (df : DataFrame Z) : list (string * Z) :=
  sort_values_desc (groupby_sum Locais df).

Definition df_para_plotar (df : DataFrame Z) : list (string * Z) :=
  firstn top_n (df_locais df).

(** The breakdown views. *)
Definition df_tipo (df : DataFrame Z) : list (string * Z) := groupby_sum Tipo df.
Definition df_subtipo_bar (df : DataFrame Z) : list (string * Z) := groupby_sum Subtipo df.
Definition df_subtipo_pie (df : DataFrame Z) : list (string * Z) := groupby_sum Subtipo df.

(** The breakdown as the specification words it: groups in the order in
    which each key first appears in the input. *)
Definition groupby_first_appearance (key : row Z -> option string) (df : DataFrame Z)
  : list (string * Z) :=
  map (fun k => (k, group_sum key df k)) (unique (dropna_text (map key df))).

(** ** Sample data *)

(** A parser that knows no numeric text at all. *)
Definition no_text : string -> option float64 := fun _ => None.

Definition header : list string := ["Tipo"; "Subtipo"; "Locais"; "Quantidade"].

Definition sample_sheet : sheet :=
  mkSheet header
    [ mkXl (Some "X") (Some "S1") (Some "L1") (Numeric (3 # 1));
      mkXl (Some "X") (Some "S1") (Some "L2") (Numeric (7 # 1));
      mkXl (Some "Y") (Some "S2") (Some "L1") (Numeric (2 # 1)) ].

Definition sample : DataFrame Z :=
  [ mkRow 0%nat (Some "X") (Some "S1") (Some "L1") 3;
    mkRow 1%nat (Some "X") (Some "S1") (Some "L2") 7;
    mkRow 2%nat (Some "Y") (Some "S2") (Some "L1") 2 ].

Definition todos : FilterState := mkFilter "Todos" "Todos" "".

Definition negative_sheet : sheet :=
  mkSheet header [ mkXl (Some "X") (Some "S1") (Some "L1") (Numeric (-5 # 1)) ].

Definition fractional_sheet : sheet :=
  mkSheet header [ mkXl (Some "X") (Some "S1") (Some "L1") (Numeric (5 # 2)) ].

Definition untyped_sheet : sheet :=
  mkSheet header
    [ mkXl None (Some "S1") (Some "L1") (Numeric (4 # 1));
      mkXl (Some "X") (Some "S2") (Some "L2") (Numeric (1 # 1)) ].

Definition tied : DataFrame Z :=
  [ mkRow 0%nat (Some "X") (Some "S1") (Some "A") 5;
    mkRow 1%nat (Some "X") (Some "S1") (Some "B") 5 ].

Definition unordered : DataFrame Z :=
  [ mkRow 0%nat (Some "Y") (Some "b") (Some "L1") 3;
    mkRow 1%nat (Some "X") (Some "a") (Some "L2") 5 ].

Definition messy_sheet : sheet :=
  mkSheet header
    [ mkXl (Some "X") (Some "S1") (Some "L1") (Numeric (3 # 1));
      mkXl (Some "X") (Some "S1") (Some "L2") Blank;
      mkXl (Some "Y") None (Some "L3") (Numeric (2 # 1));
      mkXl (Some "Y") (Some "S2") None (Numeric (6 # 1));
      mkXl (Some "Y") (Some "S2") (Some "L1") (Text "muitas");
      mkXl None (Some "S2") (Some "L4") (Numeric (5 # 2)) ].

Definition messy_clean : DataFrame Z :=
  [ mkRow 0%nat (Some "X") (Some "S1") (Some "L1") 3;
    mkRow 5%nat None (Some "S2") (Some "L4") 2 ].

Definition tied_sheet : sheet :=
  mkSheet header
    [ mkXl (Some "X") (Some "S1") (Some "A") (Numeric (5 # 1));
      mkXl (Some "X") (Some "S1") (Some "B") (Numeric (5 # 1)) ].

Definition untyped : DataFrame Z :=
  [ mkRow 0%nat None (Some "S1") (Some "L1") 4;
    mkRow 1%nat (Some "X") (Some "S2") (Some "L2") 1 ].

(** ** Reference functions for the proofs *)

(** [l] is [l'] with some elements left out, the others in place. *)
Inductive subsequence {A : Type} : list A -> list A -> Prop :=
| subsequence_nil : subsequence [] []
| subsequence_skip (x : A) (l l' : list A) :
    subsequence l l' -> subsequence l (x :: l')
| subsequence_keep (x : A) (l l' : list A) :
    subsequence l l' -> subsequence (x :: l) (x :: l').




(** A term without special characters compiles to its letters. *)
Fixpoint literals (term : string) : list atom :=
  match term with
  | EmptyString => []
  | String a term' => Lit (lower a) :: literals term'
  end.

(** The row of the first maximum, by position. *)
Fixpoint first_max_from (best : row Z) (df : DataFrame Z) : row Z :=
  match df with
  | [] => best
  | x :: df' =>
      if Quantidade best <? Quantidade x
      then first_max_from x df'
      else first_max_from best df'
  end.

(** The two stages of [carregar_dados] by name: the column check and the
    frame after [dropna]. *)
Definition columns_ok (sh : sheet) : bool :=
  forallb (fun coluna => existsb (String.eqb coluna) (columns sh)) colunas_necessarias.

Definition cleaned (floatify : string -> option float64) (sh : sheet) : DataFrame float64 :=
  dropna (map (set_Quantidade (to_numeric floatify)) (read_excel sh)).

(** ** The rest of the page

    What the script shows below the indicators: the detail table and the
    choice of charts. *)

(** [df.groupby(key)] iterated: the keys in ascending order, each with
    its rows in frame order. *)
Definition groupby_groups (key : row Z -> option string) (df : DataFrame Z)
  : list (string * DataFrame Z) :=
  map (fun k => (k, filter (fun r => eq_text (key r) k) df))
      (sorted (unique (dropna_text (map key df)))).

Lemma rows_descending_total (a b : row Z) :
  (Quantidade b <=? Quantidade a) = true \/ (Quantidade a <=? Quantidade b) = true.
Proof. rewrite !Z.leb_le. lia. Qed.

(** [grupo.sort_values(by="Quantidade", ascending=False)]; as for the sums,
    merge sort stands for a sort that leaves the order of ties open. *)
Module RowDescending <: TotalLeBool.
Definition t : Type := row Z.
Definition leb (a b : t) : bool := Quantidade b <=? Quantidade a.
Definition leb_total : forall a b : t, leb a b = true \/ leb b a = true :=
  rows_descending_total.
End RowDescending.

Module RowSort := Sort RowDescending.

Definition grupo_ordenado (grupo : DataFrame Z) : DataFrame Z := RowSort.sort grupo.

(** One expander of the detail table: the subcategory, the total in its
    title and the lines [grupo_ordenado[["Locais", "Quantidade"]]]. *)
Record expander : Type := mkExpander {
  exp_subtipo : string;
  exp_total : Z;
  exp_linhas : list (option string * Z)
}.

Definition tabela_detalhada (df : DataFrame Z) : list expander :=
  map (fun g =>
         mkExpander (fst g)
           (sum_int64 (map Quantidade (snd g)))
           (map (fun r => (Locais r, Quantidade r)) (grupo_ordenado (snd g))))
      (groupby_groups Subtipo df).

(** The three indicators; the third is the name and quantity read off
    [maior_linha]. *)
Record indicadores : Type := mkIndicadores {
  kpi_total : Z;
  kpi_locais : nat;
  kpi_maior : option (option string * Z)
}.

(** The charts: the top-10 view, whose title counts the bars, or the
    general view with a bar chart by [Tipo] or by [Subtipo] and the pie. *)
Inductive graficos : Type :=
| VistaDetalhada (subtipo : string) (exibindo : nat) (barras : list (string * Z))
| VistaGeralTipo (barras pizza : list (string * Z))
| VistaGeralSubtipo (tipo : string) (barras pizza : list (string * Z)).

Inductive pagina : Type :=
| Aviso
| Painel (k : indicadores) (g : graficos) (t : list expander).

Definition empty {A : Type} (df : list A) : bool :=
  match df with [] => true | _ => false end.

(** Lines 80 to 161, on the filtered frame. *)
Definition exibir (df_filtrado : DataFrame Z) (fs : FilterState) : pagina :=
  if empty df_filtrado then Aviso
  else
    let k := mkIndicadores (total_cameras df_filtrado) (total_locais df_filtrado)
               (option_map (fun r => (Locais r, Quantidade r)) (maior_linha df_filtrado)) in
    let g :=
      if negb (String.eqb (subtipo_opcao fs) "Todos")
      then VistaDetalhada (subtipo_opcao fs)
             (List.length (df_para_plotar df_filtrado)) (df_para_plotar df_filtrado)
      else if String.eqb (tipo_opcao fs) "Todos"
           then VistaGeralTipo (df_tipo df_filtrado) (df_subtipo_pie df_filtrado)
           else VistaGeralSubtipo (tipo_opcao fs)
                  (df_subtipo_bar df_filtrado) (df_subtipo_pie df_filtrado) in
    Painel k g (tabela_detalhada df_filtrado).

(** The whole script for one choice of the widgets. *)
Definition dashboard {E : ReEngine} (floatify : string -> option float64)
  (arquivo : option sheet) (fs : FilterState) : outcome pagina :=
  match carregar_dados floatify arquivo with
  | Ok df =>
      match df_filtrado df fs with
      | Ok filtrado => Ok (exibir filtrado fs)
      | Stop m => Stop m
      | Raise e => Raise e
      end
  | Stop m => Stop m
  | Raise e => Raise e
  end.

(** The second select box. *)
Definition subtipo_opcoes (df : DataFrame Z) (tipo : string) : list string :=
  "Todos" :: subtipo_lista df tipo.

(** The sum of a list of integers, without wrap-around. *)
Definition Zsum (l : list Z) : Z := fold_right Z.add 0 l.

Definition has_key (key : row Z -> option string) (r : row Z) : bool := present (key r).

(** ** Notions the statements use

    Written without the functions of the model, so that a statement says
    what the code computes and not how the model computes it. *)

(** [out] is [l] restricted to the elements satisfying [P], in order. *)
Inductive selects {A : Type} (P : A -> Prop) : list A -> list A -> Prop :=
| selects_nil : selects P [] []
| selects_keep (x : A) (l out : list A) :
    P x -> selects P l out -> selects P (x :: l) (x :: out)
| selects_drop (x : A) (l out : list A) :
    ~ P x -> selects P l out -> selects P (x :: l) out.

(** [v] is the number [q] without its fraction, rounded toward zero. *)
Definition truncation_of (q : Q) (v : Z) : Prop :=
  ((0 <= q)%Q -> (inject_Z v <= q)%Q /\ (q < inject_Z (v + 1))%Q) /\
  ((q <= 0)%Q -> (inject_Z (v - 1) < q)%Q /\ (q <= inject_Z v)%Q).

(** The truncation of [q] fits in 64 bits. *)
Definition fits_int64 (q : Q) : Prop :=
  (inject_Z (- 2 ^ 63 - 1) < q)%Q /\ (q < inject_Z (2 ^ 63))%Q.

Definition is_int64 (v : Z) : Prop := - 2 ^ 63 <= v < 2 ^ 63.

(** [v] is the int64 sum of [l]: in range, and the sum up to 2^64. *)
Definition int64_sum_of (l : list Z) (v : Z) : Prop :=
  is_int64 v /\ (v - Zsum l) mod 2 ^ 64 = 0.







Definition negative_fraction_sheet : sheet :=
  mkSheet header [ mkXl (Some "X") (Some "S1") (Some "L1") (Numeric (-5 # 2)) ].

Definition eleven_sheet : sheet :=
  mkSheet header
    (map (fun l => mkXl (Some "X") (Some "S1") (Some l) (Numeric (1 # 1)))
         [ "a"; "b"; "c"; "d"; "e"; "f"; "g"; "h"; "i"; "j"; "k" ]).

(** ** The loader: what it keeps and what it drops *)

Lemma read_rows_In (l : list xl_row) : forall (i : nat) (r : row cell),
  In r (read_rows i l) <->
  exists k x, nth_error l k = Some x /\
    r = mkRow (i + k)%nat (xl_Tipo x) (xl_Subtipo x) (xl_Locais x) (xl_Quantidade x).
Proof.
  induction l as [|y l IH]; intros i r; simpl.
  - split; [tauto|]. intros (k & x & Hk & _). destruct k; discriminate.
  - rewrite IH. split.
    + intros [<- | (k & x & Hk & ->)].
      * exists 0%nat, y. simpl. now rewrite Nat.add_0_r.
      * exists (S k), x. simpl. split; [assumption|]. f_equal. lia.
    + intros (k & x & Hk & ->). destruct k as [|k]; simpl in Hk.
      * left. injection Hk as ->. now rewrite Nat.add_0_r.
      * right. exists k, x. split; [assumption|]. f_equal. lia.
Qed.

Lemma read_rows_index (l : list xl_row) : forall i : nat,
  map index (read_rows i l) = seq i (List.length l).
Proof.
  induction l as [|y l IH]; intros i; simpl; [reflexivity|].
  now rewrite IH.
Qed.

(** Narrowing a frame keeps its index labels distinct. *)
Lemma filter_index_NoDup {Q : Type} (keep : row Q -> bool) (df : DataFrame Q) :
  NoDup (map index df) -> NoDup (map index (filter keep df)).
Proof.
  induction df as [|x df IH]; simpl; intros Hnd; [constructor|].
  apply NoDup_cons_iff in Hnd. destruct Hnd as [Hx Hdf].
  destruct (keep x); simpl; [|now apply IH].
  apply NoDup_cons_iff. split; [|now apply IH].
  intros Hin. apply Hx. apply in_map_iff in Hin.
  destruct Hin as (y & Hy & Hin). apply filter_In in Hin.
  rewrite <- Hy. apply in_map. tauto.
Qed.

Section LoaderFacts.

Variable floatify : string -> option float64.

Lemma carregar_dados_Ok (file : option sheet) (df : DataFrame Z) :
  carregar_dados floatify file = Ok df ->
  exists sh, file = Some sh /\ columns_ok sh = true /\
    forallb (fun r => isfinite (Quantidade r)) (cleaned floatify sh) = true /\
    df = map (set_Quantidade to_int) (cleaned floatify sh).
Proof.
  unfold carregar_dados, astype_int. destruct file as [sh|]; [|discriminate].
  fold (columns_ok sh). fold (cleaned floatify sh).
  destruct (columns_ok sh) eqn:Hcols; simpl; [|discriminate].
  destruct (forallb _ (cleaned floatify sh)) eqn:Hfin; [|discriminate].
  intros [= <-]. exists sh. repeat split; assumption || reflexivity.
Qed.

(** The loader returns a Dataset as soon as the file is there, the four
    columns are there and no kept quantity is infinite. *)
Lemma carregar_dados_returns (sh : sheet) :
  columns_ok sh = true ->
  (forall x, In x (lines sh) -> forall b, to_numeric floatify (xl_Quantidade x) <> Infinite b) ->
  exists df, carregar_dados floatify (Some sh) = Ok df.
Proof.
  intros Hcols Hfin. unfold carregar_dados, astype_int.
  fold (columns_ok sh). fold (cleaned floatify sh). rewrite Hcols. simpl.
  assert (H : forallb (fun r => isfinite (Quantidade r)) (cleaned floatify sh) = true).
  { apply forallb_forall. intros r Hr. unfold cleaned, dropna in Hr.
    apply filter_In in Hr. destruct Hr as [Hr Hkeep].
    apply in_map_iff in Hr. destruct Hr as (r0 & <- & Hr0).
    apply read_rows_In in Hr0. destruct Hr0 as (k & x & Hk & ->).
    simpl in *. apply nth_error_In in Hk. specialize (Hfin x Hk).
    destruct (to_numeric floatify (xl_Quantidade x)) as [q|b|]; simpl in *;
      [reflexivity | now elim (Hfin b) | discriminate]. }
  rewrite H. eauto.
Qed.

Lemma cleaned_In (sh : sheet) (r : row float64) :
  In r (cleaned floatify sh) <->
  exists x, nth_error (lines sh) (index r) = Some x /\
    notna (Quantidade r) = true /\
    present (xl_Subtipo x) = true /\ present (xl_Locais x) = true /\
    r = mkRow (index r) (xl_Tipo x) (xl_Subtipo x) (xl_Locais x)
          (to_numeric floatify (xl_Quantidade x)).
Proof.
  unfold cleaned, dropna, read_excel. rewrite filter_In, in_map_iff. split.
  - intros [(r0 & <- & Hr0) Hkeep]. apply read_rows_In in Hr0.
    destruct Hr0 as (k & x & Hk & ->). simpl in *.
    apply andb_true_iff in Hkeep. destruct Hkeep as [Hkeep Hl].
    apply andb_true_iff in Hkeep. destruct Hkeep as [Hq Hs].
    exists x. auto.
  - intros (x & Hk & Hq & Hs & Hl & Hr). split.
    + exists (mkRow (index r) (xl_Tipo x) (xl_Subtipo x) (xl_Locais x) (xl_Quantidade x)).
      split; [now rewrite Hr at 2|].
      apply read_rows_In. exists (index r), x. auto.
    + rewrite Hr. simpl. rewrite Hr in Hq. simpl in Hq. now rewrite Hq, Hs, Hl.
Qed.

Lemma carregar_dados_In (sh : sheet) (df : DataFrame Z) (r : row Z) :
  carregar_dados floatify (Some sh) = Ok df ->
  (In r df <->
   exists x q, nth_error (lines sh) (index r) = Some x /\
     to_numeric floatify (xl_Quantidade x) = Finite q /\
     present (xl_Subtipo x) = true /\ present (xl_Locais x) = true /\
     r = mkRow (index r) (xl_Tipo x) (xl_Subtipo x) (xl_Locais x) (Qtrunc q)).
Proof.
  intros H. apply carregar_dados_Ok in H.
  destruct H as (sh' & [= <-] & _ & Hfin & ->).
  rewrite forallb_forall in Hfin. rewrite in_map_iff. split.
  - intros (r1 & <- & Hr1). specialize (Hfin r1 Hr1).
    apply cleaned_In in Hr1. destruct Hr1 as (x & Hk & _ & Hs & Hl & Hr).
    rewrite Hr in Hfin. simpl in Hfin.
    destruct (to_numeric floatify (xl_Quantidade x)) as [q| |] eqn:Hq; try discriminate.
    exists x, q. simpl. repeat split; try assumption.
    rewrite Hr. reflexivity.
  - intros (x & q & Hk & Hq & Hs & Hl & Hr).
    exists (mkRow (index r) (xl_Tipo x) (xl_Subtipo x) (xl_Locais x) (Finite q)).
    split; [now rewrite Hr at 2|].
    apply cleaned_In. exists x. cbn [index Quantidade]. rewrite Hq. auto.
Qed.

Lemma carregar_dados_NoDup (file : option sheet) (df : DataFrame Z) :
  carregar_dados floatify file = Ok df -> NoDup (map index df).
Proof.
  intros H. apply carregar_dados_Ok in H. destruct H as (sh & _ & _ & _ & ->).
  rewrite map_map. simpl. unfold cleaned, dropna.
  apply filter_index_NoDup. rewrite map_map. simpl.
  unfold read_excel. fold (@index cell). rewrite read_rows_index. apply seq_NoDup.
Qed.

End LoaderFacts.

(** ** Cleaning *)

Lemma present_Some (c : option string) : present c = true <-> c <> None.
Proof. destruct c; simpl; split; congruence. Qed.

Lemma wrap64_small (z : Z) : is_int64 z -> wrap64 z = z.
Proof.
  unfold is_int64, wrap64. intros H. rewrite Z.mod_small; lia.
Qed.

Lemma wrap64_range (z : Z) : is_int64 (wrap64 z).
Proof.
  unfold is_int64, wrap64.
  pose proof (Z.mod_pos_bound (z + 2 ^ 63) (2 ^ 64)). lia.
Qed.

Lemma Qtruncate_truncation (q : Q) : truncation_of q (Qtruncate q).
Proof.
  destruct q as [n d]. unfold truncation_of, Qtruncate, Qle, Qlt, inject_Z. simpl.
  pose proof (Z.quot_rem' n (Z.pos d)) as Hdiv.
  pose proof (Z.rem_bound_pos n (Z.pos d)) as Hpos.
  pose proof (Z.rem_bound_pos_neg n (Z.pos d)) as Hneg.
  set (t := n ÷ Z.pos d) in *. set (r := Z.rem n (Z.pos d)) in *.
  clearbody t r. split; intros Hsign; nia.
Qed.

Lemma Qtruncate_fits (q : Q) : fits_int64 q -> is_int64 (Qtruncate q).
Proof.
  destruct q as [n d]. unfold fits_int64, is_int64, Qtruncate, Qlt, inject_Z. simpl.
  pose proof (Z.quot_rem' n (Z.pos d)) as Hdiv.
  pose proof (Z.rem_bound_pos n (Z.pos d)) as Hpos.
  pose proof (Z.rem_bound_pos_neg n (Z.pos d)) as Hneg.
  set (t := n ÷ Z.pos d) in *. set (r := Z.rem n (Z.pos d)) in *.
  clearbody t r. intros [Hlo Hhi].
  destruct (Z.le_gt_cases 0 n); nia.
Qed.

Lemma Qtrunc_fits (q : Q) : fits_int64 q -> truncation_of q (Qtrunc q).
Proof.
  intros Hfit. unfold Qtrunc. rewrite wrap64_small by now apply Qtruncate_fits.
  apply Qtruncate_truncation.
Qed.

(** C1, as amended: when the loader returns a Dataset, every record kept
    has a 64-bit integer [Quantidade], which is the number its cell
    coerced to without its fraction whenever that fits in 64 bits, and a
    present [Subtipo] and [Locais]; and no line whose [Quantidade] fails
    the coercion, or whose [Subtipo] or [Locais] is missing, has a record
    in the Dataset.  The sign is not constrained. *)
Theorem cleaned_dataset_invariant
  (floatify : string -> option float64) (sh : sheet) (df : DataFrame Z) :
  carregar_dados floatify (Some sh) = Ok df ->
  (forall r, In r df ->
     Subtipo r <> None /\ Locais r <> None /\ is_int64 (Quantidade r) /\
     exists x q, nth_error (lines sh) (index r) = Some x /\
       to_numeric floatify (xl_Quantidade x) = Finite q /\
       (fits_int64 q -> truncation_of q (Quantidade r))) /\
  (forall i x, nth_error (lines sh) i = Some x ->
     to_numeric floatify (xl_Quantidade x) = NaN \/
     xl_Subtipo x = None \/ xl_Locais x = None ->
     forall r, In r df -> index r <> i).
Proof.
  intros Hload. split.
  - intros r Hr. apply (carregar_dados_In floatify sh df r Hload) in Hr.
    destruct Hr as (x & q & Hk & Hq & Hs & Hl & Hr).
    rewrite Hr. simpl. rewrite <- !present_Some.
    split; [assumption|]. split; [assumption|]. split; [apply wrap64_range|].
    exists x, q. split; [assumption|]. split; [assumption|]. apply Qtrunc_fits.
  - intros i x Hi Hbad r Hr Hidx.
    apply (carregar_dados_In floatify sh df r Hload) in Hr.
    destruct Hr as (x' & q & Hk & Hq & Hs & Hl & _).
    rewrite Hidx, Hi in Hk. injection Hk as <-.
    destruct Hbad as [Hbad | [Hbad | Hbad]]; rewrite Hbad in *; discriminate.
Qed.

Lemma cleaned_dataset_invariant_witness :
  carregar_dados no_text (Some messy_sheet) = Ok messy_clean /\
  (forall r, In r messy_clean ->
     Subtipo r <> None /\ Locais r <> None /\ is_int64 (Quantidade r)) /\
  (forall r, In r messy_clean -> index r <> 1%nat).
Proof.
  split; [reflexivity|].
  destruct (cleaned_dataset_invariant no_text messy_sheet messy_clean eq_refl)
    as [Hkept Hdropped].
  split.
  - intros r Hr. destruct (Hkept r Hr) as (Hs & Hl & Hq & _).
    split; [exact Hs|]. split; [exact Hl | exact Hq].
  - intros r Hr. apply (Hdropped 1%nat (mkXl (Some "X") (Some "S1") (Some "L2") Blank));
      [reflexivity | now left | assumption].
Defined.

(** C1 as stated fails on the sign: a line with the quantity -5 passes the
    coercion and the [dropna], and the Dataset holds it with -5. *)
Lemma negative_quantity_retained :
  carregar_dados no_text (Some negative_sheet)
    = Ok [ mkRow 0%nat (Some "X") (Some "S1") (Some "L1") (-5) ] /\
  ~ (forall df r, carregar_dados no_text (Some negative_sheet) = Ok df ->
       In r df -> 0 <= Quantidade r).
Proof.
  split; [reflexivity|].
  intros H.
  specialize (H _ (mkRow 0%nat (Some "X") (Some "S1") (Some "L1") (-5)) eq_refl).
  simpl in H. specialize (H (or_introl eq_refl)). lia.
Qed.

(** C9 as stated fails on "smaller": the cast cuts toward zero, so a
    negative fraction becomes a larger integer; -2.5 is kept as -2. *)
Lemma negative_fraction_becomes_larger :
  carregar_dados no_text (Some negative_fraction_sheet)
    = Ok [ mkRow 0%nat (Some "X") (Some "S1") (Some "L1") (-2) ] /\
  (-5 # 2 < inject_Z (-2))%Q.
Proof. split; reflexivity. Qed.

(** C9, as amended: a line whose [Quantidade] cell holds a number with a
    fraction (fitting in 64 bits) passes the coercion and is never
    dropped for its quantity: it has a record in the Dataset exactly
    when its [Subtipo] and [Locais] are present.  The record keeps the
    line's texts and its [Quantidade] is the number cut toward zero: the
    integer just below a positive number (2.5 gives 2), the integer just
    above a negative one. *)
Theorem fractional_quantity_truncated
  (floatify : string -> option float64) (sh : sheet) (df : DataFrame Z)
  (i : nat) (x : xl_row) (q : Q) :
  carregar_dados floatify (Some sh) = Ok df ->
  nth_error (lines sh) i = Some x ->
  xl_Quantidade x = Numeric q ->
  (forall z : Z, ~ (q == inject_Z z)%Q) ->
  fits_int64 q ->
  to_numeric floatify (xl_Quantidade x) = Finite q /\
  ((exists r, In r df /\ index r = i) <->
   xl_Subtipo x <> None /\ xl_Locais x <> None) /\
  (forall r, In r df -> index r = i ->
     Tipo r = xl_Tipo x /\ Subtipo r = xl_Subtipo x /\ Locais r = xl_Locais x /\
     ((0 < q)%Q ->
      (inject_Z (Quantidade r) < q)%Q /\ (q < inject_Z (Quantidade r + 1))%Q) /\
     ((q < 0)%Q ->
      (inject_Z (Quantidade r - 1) < q)%Q /\ (q < inject_Z (Quantidade r))%Q)).
Proof.
  intros Hload Hi Hq Hfrac Hfit.
  assert (Hnum : to_numeric floatify (xl_Quantidade x) = Finite q) by now rewrite Hq.
  split; [assumption|]. split.
  - split.
    + intros (r & Hr & Hidx). apply (carregar_dados_In floatify sh df r Hload) in Hr.
      destruct Hr as (x' & q' & Hk & _ & Hs & Hl & _).
      rewrite Hidx, Hi in Hk. injection Hk as <-. rewrite <- !present_Some. now split.
    + intros [Hs Hl].
      exists (mkRow i (xl_Tipo x) (xl_Subtipo x) (xl_Locais x) (Qtrunc q)).
      split; [|reflexivity]. apply (carregar_dados_In floatify sh df _ Hload). simpl.
      exists x, q. rewrite !present_Some. auto.
  - intros r Hr Hidx. apply (carregar_dados_In floatify sh df r Hload) in Hr.
    destruct Hr as (x' & q' & Hk & Hq' & _ & _ & Hr).
    rewrite Hidx, Hi in Hk. injection Hk as <-.
    rewrite Hnum in Hq'. injection Hq' as <-. rewrite Hr. simpl.
    split; [reflexivity|]. split; [reflexivity|]. split; [reflexivity|].
    destruct (Qtrunc_fits q Hfit) as [Hpos Hneg].
    assert (Hne : forall v : Z, ~ (inject_Z v == q)%Q)
      by (intros v Hv; apply (Hfrac v); now symmetry).
    split; intros Hsign.
    + destruct (Hpos (Qlt_le_weak _ _ Hsign)) as [Hle Hlt]. split; [|exact Hlt].
      apply Qle_lteq in Hle. destruct Hle as [Hle | Heq]; [exact Hle | now elim (Hne _ Heq)].
    + destruct (Hneg (Qlt_le_weak _ _ Hsign)) as [Hlt Hle]. split; [exact Hlt|].
      apply Qle_lteq in Hle. destruct Hle as [Hle | Heq]; [exact Hle|].
      elim (Hfrac (Qtrunc q)). exact Heq.
Qed.

Lemma fractional_quantity_truncated_witness :
  carregar_dados no_text (Some fractional_sheet)
    = Ok [ mkRow 0%nat (Some "X") (Some "S1") (Some "L1") 2 ] /\
  fits_int64 (5 # 2) /\
  forall r, In r [ mkRow 0%nat (Some "X") (Some "S1") (Some "L1") 2 ] ->
    index r = 0%nat -> (inject_Z (Quantidade r) < 5 # 2)%Q.
Proof.
  split; [reflexivity|].
  assert (Hfrac : forall z : Z, ~ (5 # 2 == inject_Z z)%Q).
  { intros z. unfold Qeq, inject_Z. simpl. lia. }
  assert (Hfit : fits_int64 (5 # 2)) by (split; reflexivity).
  split; [exact Hfit|].
  destruct (fractional_quantity_truncated no_text fractional_sheet
              [ mkRow 0%nat (Some "X") (Some "S1") (Some "L1") 2 ] 0%nat
              (mkXl (Some "X") (Some "S1") (Some "L1") (Numeric (5 # 2))) (5 # 2)
              eq_refl eq_refl eq_refl Hfrac Hfit)
    as (_ & _ & Hrow).
  intros r Hr Hidx. destruct (Hrow r Hr Hidx) as (_ & _ & _ & Hpos & _).
  apply Hpos. reflexivity.
Defined.

(** ** The filter engine *)

Lemma getitem_mask_map {A : Type} (f : A -> bool) (l : list A) :
  getitem_mask l (map f l) = filter f l.
Proof.
  induction l as [|x l IH]; simpl; [reflexivity|].
  now rewrite IH.
Qed.

Lemma filter_and {A : Type} (f g : A -> bool) (l : list A) :
  filter g (filter f l) = filter (fun x => f x && g x) l.
Proof.
  induction l as [|x l IH]; simpl; [reflexivity|].
  destruct (f x); simpl; [destruct (g x)|]; now rewrite IH.
Qed.

Lemma filter_subsequence {A : Type} (f : A -> bool) (l : list A) :
  subsequence (filter f l) l.
Proof.
  induction l as [|x l IH]; simpl; [constructor|].
  destruct (f x); now constructor.
Qed.

(** One conditional narrowing of the script is one filter. *)
Lemma stage_filter {A : Type} (skip : bool) (f : A -> bool) (l : list A) :
  (if negb skip then getitem_mask l (map f l) else l)
  = filter (fun r => skip || f r) l.
Proof.
  destruct skip; simpl.
  - symmetry. apply filter_true.
  - apply getitem_mask_map.
Qed.

Section FilterFacts.

Context {E : ReEngine}.

Lemma df_filtrado_filter (df : DataFrame Z) (fs : FilterState) (found : string -> bool) :
  finder (busca_local fs) = Some found ->
  df_filtrado df fs = Ok (filter (satisfies fs found) df).
Proof.
  unfold finder, df_filtrado, str_contains, truthy. intros Hfind.
  rewrite !stage_filter, filter_and.
  assert (Hsat : forall g : row Z -> bool,
            filter (fun r => (String.eqb (tipo_opcao fs) "Todos"
                                || eq_text (Tipo r) (tipo_opcao fs))
                             && (String.eqb (subtipo_opcao fs) "Todos"
                                || eq_text (Subtipo r) (subtipo_opcao fs))
                             && g r) df
            = filter (fun r => category_ok fs r && subcategory_ok fs r && g r) df)
    by reflexivity.
  unfold satisfies, search_ok.
  destruct (String.eqb (busca_local fs) "") eqn:Hterm; simpl in *.
  - f_equal. apply filter_ext. intros r.
    unfold category_ok, subcategory_ok. now rewrite andb_true_r.
  - destruct (re_compile (busca_local fs)) as [p|]; [|discriminate].
    injection Hfind as <-. f_equal.
    rewrite map_map, getitem_mask_map, filter_and. reflexivity.
Qed.

Lemma df_filtrado_raises (df : DataFrame Z) (fs : FilterState) :
  finder (busca_local fs) = None -> df_filtrado df fs = Raise ReError.
Proof.
  unfold finder, df_filtrado, str_contains.
  destruct (truthy (busca_local fs)); [|discriminate].
  now destruct (re_compile (busca_local fs)).
Qed.

Lemma df_filtrado_Ok (df out : DataFrame Z) (fs : FilterState) :
  df_filtrado df fs = Ok out ->
  exists found, finder (busca_local fs) = Some found /\
    out = filter (satisfies fs found) df.
Proof.
  intros H. destruct (finder (busca_local fs)) as [found|] eqn:Hfind.
  - rewrite (df_filtrado_filter df fs found Hfind) in H. injection H as <-. eauto.
  - rewrite (df_filtrado_raises df fs Hfind) in H. discriminate.
Qed.

Lemma df_filtrado_NoDup (df out : DataFrame Z) (fs : FilterState) :
  NoDup (map index df) -> df_filtrado df fs = Ok out -> NoDup (map index out).
Proof.
  intros Hdf H. apply df_filtrado_Ok in H. destruct H as (found & _ & ->).
  now apply filter_index_NoDup.
Qed.

End FilterFacts.

Lemma eq_text_true (c : option string) (s : string) :
  eq_text c s = true <-> c = Some s.
Proof.
  destruct c as [t|]; simpl; [|split; discriminate].
  rewrite String.eqb_eq. split; congruence.
Qed.

Lemma filter_selects {A : Type} (P : A -> Prop) (p : A -> bool) (l : list A) :
  (forall x, p x = true <-> P x) -> selects P l (filter p l).
Proof.
  intros Hp. induction l as [|x l IH]; simpl; [constructor|].
  destruct (p x) eqn:Hx.
  - constructor; [now apply Hp | exact IH].
  - constructor; [|exact IH]. intros HP. apply Hp in HP. congruence.
Qed.





(** C7: filtering is idempotent.  Whatever the filter engine returns for a
    Dataset and a FilterState, it returns again when given that result
    and the same FilterState. *)
Theorem filter_idempotent
  {E : ReEngine} (df out : DataFrame Z) (fs : FilterState) :
  df_filtrado df fs = Ok out -> df_filtrado out fs = Ok out.
Proof.
  intros H. apply df_filtrado_Ok in H. destruct H as (found & Hfind & ->).
  rewrite (df_filtrado_filter _ fs found Hfind). apply f_equal.
  rewrite filter_and. apply filter_ext. intros r. apply andb_diag.
Qed.

Lemma filter_idempotent_witness :
  df_filtrado (E := fragment) sample (mkFilter "X" "S1" "l")
    = Ok [ mkRow 0%nat (Some "X") (Some "S1") (Some "L1") 3;
           mkRow 1%nat (Some "X") (Some "S1") (Some "L2") 7 ] /\
  df_filtrado (E := fragment)
    [ mkRow 0%nat (Some "X") (Some "S1") (Some "L1") 3;
      mkRow 1%nat (Some "X") (Some "S1") (Some "L2") 7 ] (mkFilter "X" "S1" "l")
    = Ok [ mkRow 0%nat (Some "X") (Some "S1") (Some "L1") 3;
           mkRow 1%nat (Some "X") (Some "S1") (Some "L2") 7 ].
Proof.
  split; [reflexivity|].
  apply (filter_idempotent (E := fragment) sample). reflexivity.
Defined.

(** C8: for a category and a subcategory (and one and the same search
    term, empty or compiled), the records returned for both together are
    among those returned for the category alone, and are those of them
    that pass the subcategory test. *)
Theorem subcategory_narrows_category
  {E : ReEngine} (df : DataFrame Z) (tipo subtipo term : string)
  (found : string -> bool) :
  finder term = Some found ->
  exists both alone,
    df_filtrado df (mkFilter tipo subtipo term) = Ok both /\
    df_filtrado df (mkFilter tipo "Todos" term) = Ok alone /\
    incl both alone /\
    both = filter (subcategory_ok (mkFilter tipo subtipo term)) alone.
Proof.
  intros Hfind.
  exists (filter (satisfies (mkFilter tipo subtipo term) found) df),
         (filter (satisfies (mkFilter tipo "Todos" term) found) df).
  split; [now apply df_filtrado_filter|]. split; [now apply df_filtrado_filter|].
  assert (Heq : filter (satisfies (mkFilter tipo subtipo term) found) df
                = filter (subcategory_ok (mkFilter tipo subtipo term))
                    (filter (satisfies (mkFilter tipo "Todos" term) found) df)).
  { rewrite filter_and. apply filter_ext. intros r.
    unfold satisfies, category_ok, subcategory_ok, search_ok. simpl.
    destruct (String.eqb tipo "Todos" || eq_text (Tipo r) tipo),
             (String.eqb subtipo "Todos" || eq_text (Subtipo r) subtipo),
             (String.eqb term "" || match Locais r with Some s => found s | None => false end);
      reflexivity. }
  split; [|exact Heq].
  rewrite Heq. apply incl_filter.
Qed.

Lemma subcategory_narrows_category_witness :
  finder (E := fragment) "" = Some (fun _ => true) /\
  exists both alone,
    df_filtrado (E := fragment) sample (mkFilter "X" "S1" "") = Ok both /\
    df_filtrado (E := fragment) sample (mkFilter "X" "Todos" "") = Ok alone /\
    incl both alone.
Proof.
  split; [reflexivity|].
  destruct (subcategory_narrows_category (E := fragment) sample "X" "S1" ""
              (fun _ => true) eq_refl)
    as (both & alone & Hboth & Halone & Hincl & _).
  exists both, alone. auto.
Defined.

(** ** The search term *)



Lemma compile_atoms_literal (term : string) :
  no_special term -> compile_atoms term = Some (literals term).
Proof.
  unfold no_special. induction term as [|a term IH]; simpl; intros H; [reflexivity|].
  assert (Ha : is_special a = false) by (apply H; now left).
  assert (Hdot : Ascii.eqb a "." = false).
  { destruct (Ascii.eqb a ".") eqn:Hd; [|reflexivity].
    apply Ascii.eqb_eq in Hd. subst a. discriminate. }
  rewrite Hdot, Ha, IH; [reflexivity|]. intros c Hc. apply H. now right.
Qed.










Lemma finder_literal (term : string) :
  no_special term ->
  finder (E := fragment) term
  = Some (if String.eqb term "" then fun _ => true else search_atoms (literals term)).
Proof.
  intros Hplain. unfold finder, truthy.
  destruct (String.eqb term ""); simpl; [reflexivity|].
  change (re_compile term) with (compile_atoms term).
  now rewrite compile_atoms_literal.
Qed.




(** ** The row of the maximum *)

Lemma idxmax_from_index (l : DataFrame Z) : forall b : row Z,
  idxmax_from (index b, Quantidade b) (column_Quantidade l)
  = index (first_max_from b l).
Proof.
  induction l as [|x l IH]; intros b; simpl; [reflexivity|].
  destruct (Quantidade b <? Quantidade x); apply IH.
Qed.

Lemma first_max_from_split (l : DataFrame Z) : forall b : row Z,
  exists pre post,
    b :: l = pre ++ first_max_from b l :: post /\
    (forall x, In x pre -> Quantidade x < Quantidade (first_max_from b l)) /\
    (forall x, In x post -> Quantidade x <= Quantidade (first_max_from b l)).
Proof.
  induction l as [|y l IH]; intros b; simpl.
  - exists [], []. simpl. repeat split; intros x [].
  - destruct (Quantidade b <? Quantidade y) eqn:Hlt.
    + apply Z.ltb_lt in Hlt.
      destruct (IH y) as (pre & post & Heq & Hpre & Hpost).
      set (m := first_max_from y l) in *.
      assert (Hy : Quantidade y <= Quantidade m).
      { destruct pre as [|p pre]; simpl in Heq; injection Heq as Hhd Htl.
        - rewrite Hhd. lia.
        - subst p. specialize (Hpre y (or_introl eq_refl)). lia. }
      exists (b :: pre), post. simpl. rewrite Heq. split; [reflexivity|].
      split; [|assumption]. intros x [<- | Hx]; [lia | now apply Hpre].
    + apply Z.ltb_ge in Hlt.
      destruct (IH b) as (pre & post & Heq & Hpre & Hpost).
      set (m := first_max_from b l) in *.
      destruct pre as [|p pre]; simpl in Heq; injection Heq as Hhd Htl.
      * exists [], (y :: post). simpl. rewrite <- Hhd, Htl. split; [reflexivity|].
        split; [intros x []|]. intros x [<- | Hx]; [lia | rewrite Hhd; now apply Hpost].
      * subst p. exists (b :: y :: pre), post. simpl. rewrite Htl.
        split; [reflexivity|]. split; [|assumption].
        pose proof (Hpre b (or_introl eq_refl)) as Hb.
        intros x [<- | [<- | Hx]]; [assumption | lia | apply Hpre; now right].
Qed.

Lemma loc_unique (df : DataFrame Z) (r : row Z) :
  NoDup (map index df) -> In r df -> loc df (index r) = Some r.
Proof.
  unfold loc. induction df as [|x df IH]; simpl; intros Hnd Hin; [contradiction|].
  inversion Hnd as [|? ? Hx Hdf]; subst.
  destruct (Nat.eqb (index x) (index r)) eqn:Hidx.
  - apply Nat.eqb_eq in Hidx. destruct Hin as [-> | Hin]; [reflexivity|].
    exfalso. apply Hx. rewrite Hidx. now apply in_map.
  - apply Nat.eqb_neq in Hidx. destruct Hin as [-> | Hin]; [now elim Hidx|].
    now apply IH.
Qed.

Lemma first_max_lookup (df : DataFrame Z) :
  NoDup (map index df) -> df <> [] ->
  exists pre r post,
    maior_linha df = Some r /\ df = pre ++ r :: post /\
    (forall x, In x pre -> Quantidade x < Quantidade r) /\
    (forall x, In x post -> Quantidade x <= Quantidade r).
Proof.
  intros Hnd Hne. destruct df as [|b l]; [contradiction|].
  destruct (first_max_from_split l b) as (pre & post & Heq & Hpre & Hpost).
  exists pre, (first_max_from b l), post.
  split; [|now repeat split].
  unfold maior_linha. cbn [column_Quantidade map idxmax].
  fold (column_Quantidade l). rewrite idxmax_from_index.
  apply loc_unique; [assumption|]. rewrite Heq. apply in_elt.
Qed.

(** C4: on every filtered record sequence that is not empty, the lookup
    returns a record of the sequence whose [Quantidade] is the largest;
    every record before it has a strictly smaller [Quantidade], so among
    tied records it is the first. *)
Theorem maior_linha_first_maximum
  {E : ReEngine} (floatify : string -> option float64) (file : option sheet)
  (df out : DataFrame Z) (fs : FilterState) :
  carregar_dados floatify file = Ok df ->
  df_filtrado df fs = Ok out ->
  out <> [] ->
  exists pre r post,
    maior_linha out = Some r /\ out = pre ++ r :: post /\
    (forall x, In x out -> Quantidade x <= Quantidade r) /\
    (forall x, In x pre -> Quantidade x < Quantidade r).
Proof.
  intros Hload Hfilter Hne.
  assert (Hnd : NoDup (map index out)).
  { apply (df_filtrado_NoDup df out fs); [|assumption].
    now apply (carregar_dados_NoDup floatify file). }
  destruct (first_max_lookup out Hnd Hne) as (pre & r & post & Hm & Heq & Hpre & Hpost).
  exists pre, r, post. repeat split; try assumption.
  intros x Hx. rewrite Heq in Hx. apply in_app_or in Hx.
  destruct Hx as [Hx | [<- | Hx]]; [apply Hpre in Hx; lia | lia | now apply Hpost].
Qed.

Lemma maior_linha_first_maximum_witness :
  carregar_dados no_text (Some tied_sheet) = Ok tied /\
  df_filtrado (E := fragment) tied todos = Ok tied /\
  tied <> [] /\
  exists pre r post,
    maior_linha tied = Some r /\ tied = pre ++ r :: post /\
    (forall x, In x pre -> Quantidade x < Quantidade r).
Proof.
  assert (Hne : tied <> []) by discriminate.
  repeat split; [exact Hne|].
  destruct (maior_linha_first_maximum (E := fragment) no_text (Some tied_sheet)
              tied tied todos eq_refl eq_refl Hne)
    as (pre & r & post & Hm & Heq & _ & Hpre).
  exists pre, r, post. auto.
Defined.

(** The tie of the specification: both locations have 5, "A" comes first. *)
Example maior_linha_tied :
  option_map Locais (maior_linha tied) = Some (Some "A").
Proof. reflexivity. Qed.

(** ** Group sums *)

Lemma string_leb_trans (a : string) : forall b c : string,
  String.leb a b = true -> String.leb b c = true -> String.leb a c = true.
Proof.
  unfold String.leb.
  induction a as [|x a IH]; intros [|y b] [|z c]; simpl; try congruence.
  unfold Ascii.compare.
  destruct (N.compare_spec (N_of_ascii x) (N_of_ascii y)) as [Hxy|Hxy|Hxy];
    try discriminate;
    destruct (N.compare_spec (N_of_ascii y) (N_of_ascii z)) as [Hyz|Hyz|Hyz];
    try discriminate;
    destruct (N.compare_spec (N_of_ascii x) (N_of_ascii z)) as [Hxz|Hxz|Hxz];
    try lia; try reflexivity.
  apply IH.
Qed.

Lemma string_leb_neq_ltb (a b : string) :
  String.leb a b = true -> a <> b -> String.ltb a b = true.
Proof.
  unfold String.leb, String.ltb. intros Hle Hne.
  destruct (String.compare a b) eqn:Hc; [|reflexivity|discriminate].
  apply String.compare_eq_iff in Hc. contradiction.
Qed.

Lemma unique_In (l : list string) (x : string) : In x (unique l) <-> In x l.
Proof.
  induction l as [|y l IH]; simpl; [tauto|].
  rewrite filter_In, IH, negb_true_iff, String.eqb_neq.
  destruct (String.eqb_spec y x) as [->|Hne]; [tauto|].
  split; [tauto|]. intros [H | H]; [contradiction|]. right. split; congruence.
Qed.

Lemma unique_NoDup (l : list string) : NoDup (unique l).
Proof.
  induction l as [|y l IH]; simpl; constructor.
  - rewrite filter_In, String.eqb_refl. simpl. intros [_ H]. discriminate.
  - now apply NoDup_filter.
Qed.

Lemma dropna_text_In (l : list (option string)) (s : string) :
  In s (dropna_text l) <-> In (Some s) l.
Proof.
  induction l as [|[t|] l IH]; simpl; [tauto| |].
  - rewrite IH. split; intros [H | H]; auto; left; congruence.
  - rewrite IH. split; [tauto|]. intros [H | H]; [discriminate | assumption].
Qed.

Lemma StronglySorted_app_inv {A : Type} (R : A -> A -> Prop) (l1 l2 : list A) :
  StronglySorted R (l1 ++ l2) ->
  StronglySorted R l1 /\ StronglySorted R l2 /\
  forall a b, In a l1 -> In b l2 -> R a b.
Proof.
  induction l1 as [|x l1 IH]; simpl; intros H.
  - repeat split; [constructor | assumption | intros a b []].
  - inversion H as [|? ? Hs Hall]; subst.
    destruct (IH Hs) as (H1 & H2 & H12). rewrite Forall_forall in Hall.
    repeat split; [|assumption|].
    + constructor; [assumption|]. apply Forall_forall. intros y Hy.
      apply Hall, in_or_app. now left.
    + intros a b [<- | Ha] Hb; [|now apply H12].
      apply Hall, in_or_app. now right.
Qed.

Lemma StronglySorted_NoDup_strict {A : Type} (R : A -> A -> Prop) (l : list A) :
  StronglySorted R l -> NoDup l -> StronglySorted (fun a b => R a b /\ a <> b) l.
Proof.
  induction 1 as [|x l Hs IH Hall]; intros Hnd; constructor;
    inversion Hnd as [|? ? Hx Hl]; subst.
  - now apply IH.
  - rewrite Forall_forall in *. intros y Hy. split; [now apply Hall|].
    intros ->. contradiction.
Qed.

Lemma StronglySorted_map {A B : Type} (f : A -> B) (R : B -> B -> Prop) (l : list A) :
  StronglySorted R (map f l) -> StronglySorted (fun a b => R (f a) (f b)) l.
Proof.
  induction l as [|x l IH]; simpl; intros H; constructor;
    inversion H as [|? ? Hs Hall]; subst.
  - now apply IH.
  - rewrite Forall_forall in *. intros y Hy. apply Hall. now apply in_map.
Qed.

Lemma StronglySorted_weaken {A : Type} (R S : A -> A -> Prop) (l : list A) :
  (forall a b, R a b -> S a b) -> StronglySorted R l -> StronglySorted S l.
Proof.
  intros HRS. induction 1 as [|x l Hs IH Hall]; constructor; [assumption|].
  rewrite Forall_forall in *. auto.
Qed.

Lemma sorted_strict (l : list string) :
  NoDup l -> StronglySorted (fun a b => String.ltb a b = true) (sorted l).
Proof.
  intros Hnd. unfold sorted.
  apply (StronglySorted_weaken
           (fun a b => is_true (StringOrder.leb a b) /\ a <> b)).
  - intros a b [Hle Hne]. now apply string_leb_neq_ltb.
  - apply StronglySorted_NoDup_strict.
    + apply StringSort.StronglySorted_sort.
      intros a b c. apply string_leb_trans.
    + apply (Permutation_NoDup (StringSort.Permuted_sort l) Hnd).
Qed.

Lemma sorted_In (l : list string) (x : string) : In x (sorted l) <-> In x l.
Proof.
  unfold sorted. split; apply Permutation_in;
    [apply Permutation_sym|]; apply StringSort.Permuted_sort.
Qed.

Section GroupFacts.

Variable key : row Z -> option string.
Variable df : DataFrame Z.

Lemma groupby_sum_keys :
  map fst (groupby_sum key df) = sorted (unique (dropna_text (map key df))).
Proof.
  unfold groupby_sum. rewrite map_map. simpl. apply map_id.
Qed.

Lemma groupby_sum_In (k : string) (v : Z) :
  In (k, v) (groupby_sum key df) <->
  (exists r, In r df /\ key r = Some k) /\ v = group_sum key df k.
Proof.
  unfold groupby_sum. rewrite in_map_iff. split.
  - intros (k' & [= -> <-] & Hk).
    rewrite sorted_In, unique_In, dropna_text_In, in_map_iff in Hk.
    destruct Hk as (r & Hr & Hin). split; [eauto | reflexivity].
  - intros ((r & Hin & Hr) & ->). exists k. split; [reflexivity|].
    rewrite sorted_In, unique_In, dropna_text_In, in_map_iff. eauto.
Qed.

Lemma groupby_sum_sorted :
  StronglySorted (fun a b => String.ltb (fst a) (fst b) = true) (groupby_sum key df).
Proof.
  apply (StronglySorted_map fst (fun a b => String.ltb a b = true)).
  rewrite groupby_sum_keys. apply sorted_strict, unique_NoDup.
Qed.

Lemma groupby_sum_NoDup : NoDup (map fst (groupby_sum key df)).
Proof.
  rewrite groupby_sum_keys.
  apply (Permutation_NoDup (StringSort.Permuted_sort _)), unique_NoDup.
Qed.

Lemma groupby_sum_Permutation :
  Permutation (groupby_sum key df) (groupby_first_appearance key df).
Proof.
  unfold groupby_sum, groupby_first_appearance, sorted.
  apply Permutation_map, Permutation_sym, StringSort.Permuted_sort.
Qed.

End GroupFacts.

(** ** int64 sums *)

Lemma wrap64_add_l (a b : Z) : wrap64 (wrap64 a + b) = wrap64 (a + b).
Proof.
  unfold wrap64. f_equal.
  replace ((a + 2 ^ 63) mod 2 ^ 64 - 2 ^ 63 + b + 2 ^ 63)
    with ((a + 2 ^ 63) mod 2 ^ 64 + b) by ring.
  rewrite Zplus_mod_idemp_l. f_equal. ring.
Qed.

Lemma wrap64_add_r (a b : Z) : wrap64 (a + wrap64 b) = wrap64 (a + b).
Proof. rewrite (Z.add_comm a), wrap64_add_l. f_equal. ring. Qed.

Lemma fold_int64_add (l : list Z) : forall a : Z,
  fold_left int64_add l (wrap64 a) = wrap64 (a + Zsum l).
Proof.
  induction l as [|x l IH]; intros a; simpl.
  - f_equal. ring.
  - unfold int64_add at 2. rewrite wrap64_add_l, IH. f_equal. ring.
Qed.

Lemma sum_int64_Zsum (l : list Z) : sum_int64 l = wrap64 (Zsum l).
Proof.
  unfold sum_int64. change 0 with (wrap64 0) at 1. now rewrite fold_int64_add.
Qed.

Lemma Zsum_app (l1 l2 : list Z) : Zsum (l1 ++ l2) = Zsum l1 + Zsum l2.
Proof. induction l1 as [|x l1 IH]; simpl; [reflexivity | rewrite IH; ring]. Qed.

Lemma Zsum_Permutation (l1 l2 : list Z) : Permutation l1 l2 -> Zsum l1 = Zsum l2.
Proof. induction 1; simpl; lia. Qed.

Lemma sum_int64_Permutation (l1 l2 : list Z) :
  Permutation l1 l2 -> sum_int64 l1 = sum_int64 l2.
Proof. intros H. rewrite !sum_int64_Zsum. f_equal. now apply Zsum_Permutation. Qed.

Lemma wrap64_Zsum_wrap {A : Type} (f : A -> Z) (l : list A) :
  wrap64 (Zsum (map (fun x => wrap64 (f x)) l)) = wrap64 (Zsum (map f l)).
Proof.
  induction l as [|x l IH]; simpl; [reflexivity|].
  rewrite wrap64_add_l, <- wrap64_add_r, IH, wrap64_add_r. reflexivity.
Qed.

Lemma Zsum_concat {A : Type} (f : A -> Z) (ls : list (list A)) :
  Zsum (map (fun l => Zsum (map f l)) ls) = Zsum (map f (List.concat ls)).
Proof.
  induction ls as [|l ls IH]; simpl; [reflexivity|].
  now rewrite map_app, Zsum_app, IH.
Qed.

Lemma int64_sum_of_iff (l : list Z) (v : Z) :
  int64_sum_of l v <-> v = sum_int64 l.
Proof.
  rewrite sum_int64_Zsum. unfold int64_sum_of. split.
  - intros [Hrange Hmod]. apply Z.mod_divide in Hmod; [|discriminate].
    destruct Hmod as [k Hk]. unfold wrap64.
    replace (Zsum l + 2 ^ 63) with (v + 2 ^ 63 + (- k) * 2 ^ 64) by lia.
    rewrite Z_mod_plus_full, Z.mod_small; unfold is_int64 in Hrange; lia.
  - intros ->. split; [apply wrap64_range|]. unfold wrap64.
    rewrite (Z.mod_eq (Zsum l + 2 ^ 63) (2 ^ 64)) by discriminate.
    replace (Zsum l + 2 ^ 63 - 2 ^ 64 * ((Zsum l + 2 ^ 63) / 2 ^ 64) - 2 ^ 63 - Zsum l)
      with ((- ((Zsum l + 2 ^ 63) / 2 ^ 64)) * 2 ^ 64) by ring.
    apply Z_mod_mult.
Qed.

Lemma selects_unique {A : Type} (P : A -> Prop) (l a b : list A) :
  selects P l a -> selects P l b -> a = b.
Proof.
  intros Ha. revert b. induction Ha as [|x l a Hx Ha IH|x l a Hx Ha IH]; intros b Hb.
  - inversion Hb. reflexivity.
  - inversion Hb; subst; [f_equal; now apply IH | contradiction].
  - inversion Hb; subst; [contradiction | now apply IH].
Qed.

(** The sum of a group in the words of the statements. *)
Lemma group_sum_iff (key : row Z -> option string) (df : DataFrame Z)
  (k : string) (v : Z) :
  v = group_sum key df k <->
  exists rows, selects (fun r => key r = Some k) df rows /\
    int64_sum_of (map Quantidade rows) v.
Proof.
  assert (Hsel : selects (fun r => key r = Some k) df
                   (filter (fun r => eq_text (key r) k) df))
    by (apply filter_selects; intros r; apply eq_text_true).
  unfold group_sum. split.
  - intros ->. eexists. split; [exact Hsel|]. now apply int64_sum_of_iff.
  - intros (rows & Hrows & Hsum).
    rewrite (selects_unique _ _ _ _ Hsel Hrows). now apply int64_sum_of_iff.
Qed.

(** ** Top 10 and the breakdown views *)

Lemma sort_values_desc_sorted (l : list (string * Z)) :
  StronglySorted (fun a b => snd b <= snd a) (sort_values_desc l).
Proof.
  unfold sort_values_desc.
  apply (StronglySorted_weaken (fun a b => is_true (SumDescending.leb a b))).
  - intros a b H. now apply Z.leb_le.
  - apply SumSort.StronglySorted_sort. intros a b c. unfold SumDescending.leb, is_true.
    rewrite !Z.leb_le. lia.
Qed.

Lemma sort_values_desc_Permutation (l : list (string * Z)) :
  Permutation (sort_values_desc l) l.
Proof. apply Permutation_sym, SumSort.Permuted_sort. Qed.

(** C5: the Top-N operation is the first 10 of a list that holds one
    group per distinct location of the records, each with the int64 sum
    of the [Quantidade] of the records of that location, in descending
    order of the sums; so it never returns more than 10 groups and the
    returned sums never increase along the list. *)
Theorem top_n_bounded_sorted (df : DataFrame Z) :
  exists ordered,
    NoDup (map fst ordered) /\
    (forall k v, In (k, v) ordered <->
       (exists r, In r df /\ Locais r = Some k) /\
       exists rows, selects (fun r => Locais r = Some k) df rows /\
         int64_sum_of (map Quantidade rows) v) /\
    StronglySorted (fun a b => snd b <= snd a) ordered /\
    df_para_plotar df = firstn 10 ordered /\
    (List.length (df_para_plotar df) <= 10)%nat /\
    StronglySorted (fun a b => snd b <= snd a) (df_para_plotar df).
Proof.
  exists (df_locais df).
  pose proof (sort_values_desc_sorted (groupby_sum Locais df)) as Hsorted.
  fold (df_locais df) in Hsorted.
  assert (Hperm : Permutation (df_locais df) (groupby_sum Locais df))
    by apply sort_values_desc_Permutation.
  split; [|split; [|split; [|split; [|split]]]].
  - apply (Permutation_NoDup (Permutation_map fst (Permutation_sym Hperm))).
    apply groupby_sum_NoDup.
  - intros k v. rewrite <- group_sum_iff, <- groupby_sum_In.
    split; apply Permutation_in; [exact Hperm | now apply Permutation_sym].
  - exact Hsorted.
  - reflexivity.
  - apply firstn_le_length.
  - unfold df_para_plotar.
    rewrite <- (firstn_skipn top_n (df_locais df)) in Hsorted.
    now apply StronglySorted_app_inv in Hsorted.
Qed.

(** Eleven locations: ten bars. *)
Example eleven_locations_ten_bars :
  option_map (fun df => List.length (df_para_plotar df))
    (match carregar_dados no_text (Some eleven_sheet) with
     | Ok df => Some df
     | _ => None
     end) = Some 10%nat.
Proof. reflexivity. Qed.

(** The example of the specification: with subcategory S1, L2 then L1. *)
Example df_para_plotar_sample :
  df_para_plotar (filter (subcategory_ok (mkFilter "Todos" "S1" "")) sample)
  = [ ("L2", 7); ("L1", 3) ].
Proof. reflexivity. Qed.

(** C6 as stated fails: the groups come out by key, not by first
    appearance.  Subcategory "b" appears before "a" in the input and
    after it in the view; likewise category "Y" and "X". *)
Lemma breakdown_not_in_first_appearance_order :
  df_subtipo_pie unordered = [ ("a", 5); ("b", 3) ] /\
  groupby_first_appearance Subtipo unordered = [ ("b", 3); ("a", 5) ] /\
  df_tipo unordered = [ ("X", 5); ("Y", 3) ] /\
  groupby_first_appearance Tipo unordered = [ ("Y", 3); ("X", 5) ] /\
  df_subtipo_pie unordered <> groupby_first_appearance Subtipo unordered /\
  df_tipo unordered <> groupby_first_appearance Tipo unordered.
Proof. repeat split; try reflexivity; discriminate. Qed.

(** C6, as amended: the sums by [Tipo] and by [Subtipo] of the breakdown
    views hold the same groups as a grouping in order of first
    appearance, one per distinct present key with the sum of its records,
    but list them in strictly ascending order of the key; no sort by sum
    is applied, unlike in the top-N view. *)
Theorem breakdown_groups_sorted_by_key (df : DataFrame Z) :
  (StronglySorted (fun a b => String.ltb (fst a) (fst b) = true) (df_tipo df) /\
   Permutation (df_tipo df) (groupby_first_appearance Tipo df) /\
   forall k v, In (k, v) (df_tipo df) <->
     (exists r, In r df /\ Tipo r = Some k) /\ v = group_sum Tipo df k) /\
  (StronglySorted (fun a b => String.ltb (fst a) (fst b) = true) (df_subtipo_pie df) /\
   Permutation (df_subtipo_pie df) (groupby_first_appearance Subtipo df) /\
   forall k v, In (k, v) (df_subtipo_pie df) <->
     (exists r, In r df /\ Subtipo r = Some k) /\ v = group_sum Subtipo df k).
Proof.
  unfold df_tipo, df_subtipo_pie.
  split; (split; [apply groupby_sum_sorted|]; split;
          [apply groupby_sum_Permutation | apply groupby_sum_In]).
Qed.

(** The two orders differ: by key "L1" leads, by sum "L2" does. *)
Example key_order_is_not_sum_order :
  groupby_sum Locais sample = [ ("L1", 5); ("L2", 7) ] /\
  df_locais sample = [ ("L2", 7); ("L1", 5) ].
Proof. split; reflexivity. Qed.

(** ** Rows without a category *)

Lemma tipo_unico_In (df : DataFrame Z) (o : string) :
  In o (tipo_unico df) <-> exists r, In r df /\ Tipo r = Some o.
Proof.
  unfold tipo_unico. rewrite sorted_In, unique_In, dropna_text_In, in_map_iff.
  split; intros (r & H1 & H2); eauto.
Qed.




(** ** The worked examples of the specification *)

Example overview_of_sample :
  carregar_dados no_text (Some sample_sheet) = Ok sample /\
  df_filtrado (E := fragment) sample todos = Ok sample /\
  total_cameras sample = 12 /\
  total_locais sample = 2%nat /\
  maior_linha sample = Some (mkRow 1%nat (Some "X") (Some "S1") (Some "L2") 7) /\
  df_tipo sample = [ ("X", 10); ("Y", 2) ].
Proof. repeat split; reflexivity. Qed.

Example search_l2_on_sample :
  df_filtrado (E := fragment) sample (mkFilter "Todos" "Todos" "l2")
  = Ok [ mkRow 1%nat (Some "X") (Some "S1") (Some "L2") 7 ].
Proof. reflexivity. Qed.

(** * Further properties of the script *)

(** ** How the loader ends *)

Lemma forallb_false {A : Type} (p : A -> bool) (l : list A) :
  forallb p l = false <-> exists x, In x l /\ p x = false.
Proof.
  induction l as [|y l IH]; simpl.
  - split; [discriminate|]. intros (x & [] & _).
  - rewrite andb_false_iff, IH. split.
    + intros [Hy | (x & Hx & Hp)]; [exists y | exists x]; auto.
    + intros (x & [-> | Hx] & Hp); [now left | right; eauto].
Qed.

Lemma column_present (c : string) (cols : list string) :
  existsb (String.eqb c) cols = true <-> In c cols.
Proof.
  rewrite existsb_exists. split.
  - intros (x & Hx & Heq). apply String.eqb_eq in Heq. now subst.
  - intros Hc. exists c. split; [assumption | apply String.eqb_refl].
Qed.

Lemma columns_ok_true (sh : sheet) :
  columns_ok sh = true <-> forall c, In c colunas_necessarias -> In c (columns sh).
Proof.
  unfold columns_ok. rewrite forallb_forall.
  split; intros H c Hc; apply column_present; auto.
Qed.

Lemma columns_ok_false (sh : sheet) :
  columns_ok sh = false <-> exists c, In c colunas_necessarias /\ ~ In c (columns sh).
Proof.
  unfold columns_ok. rewrite forallb_false. split; intros (c & Hc & Hno); exists c;
    (split; [assumption|]).
  - rewrite <- column_present. congruence.
  - rewrite <- column_present in Hno. now destruct (existsb _ _).
Qed.

Lemma infinite_kept (floatify : string -> option float64) (sh : sheet) :
  forallb (fun r => isfinite (Quantidade r)) (cleaned floatify sh) = false <->
  exists x b, In x (lines sh) /\ xl_Subtipo x <> None /\ xl_Locais x <> None /\
    to_numeric floatify (xl_Quantidade x) = Infinite b.
Proof.
  rewrite forallb_false. split.
  - intros (r & Hr & Hinf). apply cleaned_In in Hr.
    destruct Hr as (x & Hk & Hna & Hs & Hl & Hr). rewrite Hr in Hinf, Hna. simpl in *.
    apply nth_error_In in Hk. rewrite present_Some in Hs, Hl.
    destruct (to_numeric floatify (xl_Quantidade x)) as [q|b|] eqn:Hq; try discriminate.
    exists x, b. auto.
  - intros (x & b & Hx & Hs & Hl & Hq). apply In_nth_error in Hx. destruct Hx as [i Hi].
    exists (mkRow i (xl_Tipo x) (xl_Subtipo x) (xl_Locais x) (Infinite b)).
    split; [|reflexivity]. apply cleaned_In. simpl. exists x.
    rewrite Hq, !present_Some. auto.
Qed.

(** X1: each way [carregar_dados] can end has one cause.  It stops with the
    not-found message only for a missing file; with the columns message
    only when a required column is absent from the header; it raises only
    when a line that passes [dropna] has an infinite quantity; and it
    returns a Dataset only when none of these holds. *)
Theorem carregar_dados_outcome
  (floatify : string -> option float64) (file : option sheet) :
  match carregar_dados floatify file with
  | Stop NotFound => file = None
  | Stop MissingColumns =>
      exists sh c, file = Some sh /\ In c colunas_necessarias /\ ~ In c (columns sh)
  | Raise IntCastingNaNError =>
      exists sh x b, file = Some sh /\
        (forall c, In c colunas_necessarias -> In c (columns sh)) /\
        In x (lines sh) /\ xl_Subtipo x <> None /\ xl_Locais x <> None /\
        to_numeric floatify (xl_Quantidade x) = Infinite b
  | Raise ReError => False
  | Ok df =>
      exists sh, file = Some sh /\
        (forall c, In c colunas_necessarias -> In c (columns sh)) /\
        (forall x b, In x (lines sh) -> xl_Subtipo x <> None -> xl_Locais x <> None ->
           to_numeric floatify (xl_Quantidade x) <> Infinite b)
  end.
Proof.
  unfold carregar_dados, astype_int. destruct file as [sh|]; [|reflexivity].
  fold (columns_ok sh). fold (cleaned floatify sh).
  destruct (columns_ok sh) eqn:Hcols; simpl.
  - pose proof (proj1 (columns_ok_true sh) Hcols) as Hall.
    destruct (forallb _ (cleaned floatify sh)) eqn:Hfin.
    + exists sh. repeat split; [assumption|]. intros x b Hx Hs Hl Hq.
      assert (Hbad : forallb (fun r => isfinite (Quantidade r)) (cleaned floatify sh) = false)
        by (apply infinite_kept; eauto 8).
      congruence.
    + apply infinite_kept in Hfin. destruct Hfin as (x & b & Hx & Hs & Hl & Hq).
      exists sh, x, b. auto 8.
  - apply columns_ok_false in Hcols. destruct Hcols as (c & Hc & Hno). exists sh, c. auto.
Qed.

(** X2: when the loader returns, the Dataset holds exactly one record for
    each parsed line whose quantity coerces to a finite number and whose
    [Subtipo] and [Locais] are present: labelled with the line's
    position, with the line's three texts unchanged and the number cast
    to int64, which is the number without its fraction whenever that
    fits in 64 bits.  No such line is lost and no record is made up. *)
Theorem dataset_rows_exactly
  (floatify : string -> option float64) (sh : sheet) (df : DataFrame Z) :
  carregar_dados floatify (Some sh) = Ok df ->
  (forall r, In r df <->
     exists x q, nth_error (lines sh) (index r) = Some x /\
       to_numeric floatify (xl_Quantidade x) = Finite q /\
       xl_Subtipo x <> None /\ xl_Locais x <> None /\
       r = mkRow (index r) (xl_Tipo x) (xl_Subtipo x) (xl_Locais x) (Qtrunc q)) /\
  (forall q, is_int64 (Qtrunc q) /\ (fits_int64 q -> truncation_of q (Qtrunc q))) /\
  NoDup df.
Proof.
  intros Hload. split; [|split].
  - intros r. rewrite (carregar_dados_In floatify sh df r Hload).
    split; intros (x & q & H); exists x, q; rewrite !present_Some in *; exact H.
  - intros q. split; [apply wrap64_range | apply Qtrunc_fits].
  - apply (NoDup_map_inv index), (carregar_dados_NoDup floatify (Some sh)), Hload.
Qed.

Lemma dataset_rows_exactly_witness :
  carregar_dados no_text (Some messy_sheet) = Ok messy_clean /\
  NoDup messy_clean.
Proof.
  split; [reflexivity|].
  apply (dataset_rows_exactly no_text messy_sheet messy_clean eq_refl).
Defined.

Lemma seq_increasing (n : nat) : forall a : nat, StronglySorted lt (seq a n).
Proof.
  induction n as [|n IH]; intros a; simpl; constructor; [apply IH|].
  apply Forall_forall. intros x Hx. apply in_seq in Hx. lia.
Qed.

Lemma filter_index_increasing {Q : Type} (keep : row Q -> bool) (df : DataFrame Q) :
  StronglySorted lt (map index df) -> StronglySorted lt (map index (filter keep df)).
Proof.
  induction df as [|x df IH]; simpl; intros Hs; [constructor|].
  inversion Hs as [|? ? Hdf Hall]; subst.
  destruct (keep x); simpl; [|now apply IH].
  constructor; [now apply IH|].
  rewrite Forall_forall in *. intros i Hi. apply Hall.
  apply in_map_iff in Hi. destruct Hi as (r & <- & Hr).
  apply filter_In in Hr. apply in_map. tauto.
Qed.

Lemma carregar_dados_increasing
  (floatify : string -> option float64) (sh : sheet) (df : DataFrame Z) :
  carregar_dados floatify (Some sh) = Ok df -> StronglySorted lt (map index df).
Proof.
  intros H. apply carregar_dados_Ok in H. destruct H as (sh' & [= <-] & _ & _ & ->).
  rewrite map_map. simpl. unfold cleaned, dropna.
  apply filter_index_increasing. rewrite map_map. simpl.
  unfold read_excel. fold (@index cell). rewrite read_rows_index. apply seq_increasing.
Qed.

(** X3: cleaning and filtering never reorder or renumber.  The labels of
    the Dataset, and of every filtered frame, are positions of lines of
    the sheet, strictly increasing along the frame. *)
Theorem labels_follow_the_sheet
  {E : ReEngine} (floatify : string -> option float64) (sh : sheet)
  (df out : DataFrame Z) (fs : FilterState) :
  carregar_dados floatify (Some sh) = Ok df ->
  df_filtrado df fs = Ok out ->
  StronglySorted lt (map index df) /\
  StronglySorted lt (map index out) /\
  (forall r, In r out -> In r df /\ (index r < List.length (lines sh))%nat).
Proof.
  intros Hload Hout.
  pose proof (carregar_dados_increasing floatify sh df Hload) as Hinc.
  apply df_filtrado_Ok in Hout. destruct Hout as (found & _ & ->).
  split; [exact Hinc|]. split; [now apply filter_index_increasing|].
  intros r Hr. apply filter_In in Hr. destruct Hr as [Hr _]. split; [exact Hr|].
  apply (carregar_dados_In floatify sh df r Hload) in Hr.
  destruct Hr as (x & q & Hk & _). apply nth_error_Some. congruence.
Qed.

Lemma labels_follow_the_sheet_witness :
  carregar_dados no_text (Some messy_sheet) = Ok messy_clean /\
  df_filtrado (E := fragment) messy_clean (mkFilter "Todos" "S2" "l") =
    Ok [ mkRow 5%nat None (Some "S2") (Some "L4") 2 ] /\
  StronglySorted lt (map index messy_clean).
Proof.
  split; [reflexivity|]. split; [reflexivity|].
  apply (labels_follow_the_sheet (E := fragment) no_text messy_sheet messy_clean
           [ mkRow 5%nat None (Some "S2") (Some "L4") 2 ] (mkFilter "Todos" "S2" "l")
           eq_refl eq_refl).
Defined.




(** ** More on the filter engine *)

(** X6: a search term only narrows.  Whatever the filter returns with a
    term is a subsequence of what it returns for the same category and
    subcategory with the search box empty, and with everything at its
    default the result is the Dataset itself. *)
Theorem search_only_narrows
  {E : ReEngine} (df out : DataFrame Z) (tipo subtipo term : string) :
  df_filtrado df (mkFilter tipo subtipo term) = Ok out ->
  exists unsearched,
    df_filtrado df (mkFilter tipo subtipo "") = Ok unsearched /\
    subsequence out unsearched /\ incl out unsearched /\
    df_filtrado df (mkFilter "Todos" "Todos" "") = Ok df.
Proof.
  intros Hout. apply df_filtrado_Ok in Hout. destruct Hout as (found & Hfind & ->).
  exists (filter (satisfies (mkFilter tipo subtipo "") (fun _ => true)) df).
  assert (Heq : filter (satisfies (mkFilter tipo subtipo term) found) df
                = filter (search_ok (mkFilter tipo subtipo term) found)
                    (filter (satisfies (mkFilter tipo subtipo "") (fun _ => true)) df)).
  { rewrite filter_and. apply filter_ext. intros r.
    unfold satisfies, category_ok, subcategory_ok, search_ok. simpl.
    now rewrite andb_true_r. }
  split; [now apply df_filtrado_filter|]. rewrite Heq.
  split; [apply filter_subsequence|]. split; [apply incl_filter|].
  rewrite (df_filtrado_filter df (mkFilter "Todos" "Todos" "") (fun _ => true) eq_refl).
  apply f_equal. apply (filter_true df).
Qed.

Lemma search_only_narrows_witness :
  df_filtrado (E := fragment) sample (mkFilter "X" "Todos" "l2")
    = Ok [ mkRow 1%nat (Some "X") (Some "S1") (Some "L2") 7 ] /\
  exists unsearched,
    df_filtrado (E := fragment) sample (mkFilter "X" "Todos" "") = Ok unsearched /\
    incl [ mkRow 1%nat (Some "X") (Some "S1") (Some "L2") 7 ] unsearched.
Proof.
  split; [reflexivity|].
  destruct (search_only_narrows (E := fragment) sample
              [ mkRow 1%nat (Some "X") (Some "S1") (Some "L2") 7 ] "X" "Todos" "l2" eq_refl)
    as (u & Hu & _ & Hincl & _).
  exists u. split; assumption.
Defined.

Lemma lower_str_nil (t : string) : lower_str t = "" <-> t = "".
Proof. destruct t; simpl; split; congruence. Qed.

Lemma literals_lower (t1 : string) : forall t2 : string,
  lower_str t1 = lower_str t2 -> literals t1 = literals t2.
Proof.
  induction t1 as [|a t1 IH]; intros [|b t2]; simpl; try discriminate; [reflexivity|].
  intros [= Hab Ht]. rewrite Hab. f_equal. now apply IH.
Qed.

(** X7: the case of the letters typed in the search box does not matter.
    Two terms without special characters that differ only in case give
    the same outcome on every frame. *)
Theorem search_term_case_irrelevant
  (df : DataFrame Z) (tipo subtipo t1 t2 : string) :
  no_special t1 -> no_special t2 -> lower_str t1 = lower_str t2 ->
  df_filtrado (E := fragment) df (mkFilter tipo subtipo t1)
  = df_filtrado (E := fragment) df (mkFilter tipo subtipo t2).
Proof.
  intros H1 H2 Hlow.
  rewrite (df_filtrado_filter df (mkFilter tipo subtipo t1) _ (finder_literal t1 H1)).
  rewrite (df_filtrado_filter df (mkFilter tipo subtipo t2) _ (finder_literal t2 H2)).
  f_equal. apply filter_ext. intros r.
  unfold satisfies, category_ok, subcategory_ok, search_ok. simpl.
  rewrite (literals_lower t1 t2 Hlow).
  assert (He : String.eqb t1 "" = String.eqb t2 "").
  { pose proof (lower_str_nil t1) as N1. pose proof (lower_str_nil t2) as N2.
    destruct (String.eqb_spec t1 "") as [Hn1|Hn1], (String.eqb_spec t2 "") as [Hn2|Hn2];
      try reflexivity; exfalso.
    - apply Hn2, N2. rewrite <- Hlow. now apply N1.
    - apply Hn1, N1. rewrite Hlow. now apply N2. }
  now rewrite He.
Qed.

Lemma search_term_case_irrelevant_witness :
  no_special "l2" /\ no_special "L2" /\ lower_str "l2" = lower_str "L2" /\
  df_filtrado (E := fragment) sample (mkFilter "Todos" "Todos" "l2")
  = df_filtrado (E := fragment) sample (mkFilter "Todos" "Todos" "L2").
Proof.
  assert (H1 : no_special "l2") by (intros c [<- | [<- | []]]; reflexivity).
  assert (H2 : no_special "L2") by (intros c [<- | [<- | []]]; reflexivity).
  split; [exact H1|]. split; [exact H2|]. split; [reflexivity|].
  apply (search_term_case_irrelevant sample "Todos" "Todos" "l2" "L2" H1 H2 eq_refl).
Defined.







(** ** The select boxes *)

Lemma subtipo_lista_In (df : DataFrame Z) (tipo o : string) :
  In o (subtipo_lista df tipo) <->
  exists r, In r df /\ (tipo = "Todos" \/ Tipo r = Some tipo) /\ Subtipo r = Some o.
Proof.
  unfold subtipo_lista. destruct (String.eqb_spec tipo "Todos") as [->|Hne]; simpl;
    rewrite sorted_In, unique_In, dropna_text_In, in_map_iff.
  - split; intros (r & H1 & H2); exists r; tauto.
  - rewrite getitem_mask_map. split.
    + intros (r & Hs & Hr). apply filter_In in Hr. destruct Hr as [Hr Ht].
      apply eq_text_true in Ht. eauto.
    + intros (r & Hr & [Ht | Ht] & Hs); [contradiction|].
      exists r. split; [assumption|]. apply filter_In. split; [assumption|].
      now apply eq_text_true.
Qed.

(** X9: what the select boxes offer.  Each list is [Todos] followed by
    values in strictly ascending order, so without repeats among them
    (only the leading [Todos] can repeat a value).  The values after
    [Todos] are the [Tipo] values present in the Dataset for the first
    box, and for the second the [Subtipo] values of the records of the
    chosen category (of all records for [Todos]); so what the second box
    offers for a category is always among what it offers for [Todos]. *)
Theorem select_box_options (df : DataFrame Z) (tipo : string) :
  (exists tipos,
     tipo_opcoes df = "Todos" :: tipos /\
     StronglySorted (fun a b => String.ltb a b = true) tipos /\
     forall o, In o tipos <-> exists r, In r df /\ Tipo r = Some o) /\
  (exists subtipos,
     subtipo_opcoes df tipo = "Todos" :: subtipos /\
     StronglySorted (fun a b => String.ltb a b = true) subtipos /\
     forall o, In o subtipos <->
       exists r, In r df /\ (tipo = "Todos" \/ Tipo r = Some tipo) /\
         Subtipo r = Some o) /\
  incl (subtipo_opcoes df tipo) (subtipo_opcoes df "Todos").
Proof.
  split; [|split].
  - exists (tipo_unico df). split; [reflexivity|].
    split; [apply sorted_strict, unique_NoDup | apply tipo_unico_In].
  - exists (subtipo_lista df tipo). split; [reflexivity|]. split.
    + unfold subtipo_lista. destruct (negb _); apply sorted_strict, unique_NoDup.
    + intros o. apply subtipo_lista_In.
  - intros o [<- | Ho]; [now left|]. right.
    apply subtipo_lista_In in Ho. destruct Ho as (r & Hr & _ & Hs).
    apply subtipo_lista_In. exists r. auto.
Qed.

Lemma filter_not_nil {A : Type} (p : A -> bool) (l : list A) (x : A) :
  In x l -> p x = true -> filter p l <> [].
Proof.
  intros Hx Hp Hnil. assert (H : In x (filter p l)) by (apply filter_In; auto).
  rewrite Hnil in H. contradiction.
Qed.

(** X10: choices taken from the select boxes always find something.  On
    a Dataset that is not empty, for any category offered and any
    subcategory offered for it, with the search box empty, the filter
    returns at least one record and the page shows the panel, not the
    warning. *)
Theorem offered_options_find_rows
  {E : ReEngine} (df : DataFrame Z) (tipo subtipo : string) :
  df <> [] ->
  In tipo (tipo_opcoes df) ->
  In subtipo (subtipo_opcoes df tipo) ->
  exists out,
    df_filtrado df (mkFilter tipo subtipo "") = Ok out /\
    out <> [] /\
    exibir out (mkFilter tipo subtipo "") <> Aviso.
Proof.
  intros Hne Ht Hs.
  set (fs := mkFilter tipo subtipo "").
  exists (filter (satisfies fs (fun _ => true)) df).
  split; [now apply df_filtrado_filter|].
  assert (Hrow : exists r, In r df /\ satisfies fs (fun _ => true) r = true).
  { unfold satisfies, category_ok, subcategory_ok, search_ok, fs. simpl.
    destruct (String.eqb_spec tipo "Todos") as [Htodos|Htipo];
      destruct (String.eqb_spec subtipo "Todos") as [Hall|Hsub]; simpl.
    - destruct df as [|r df']; [contradiction|]. exists r. split; [now left | reflexivity].
    - destruct Hs as [Hs | Hs]; [now elim Hsub|].
      apply subtipo_lista_In in Hs. destruct Hs as (r & Hr & _ & Hsr).
      exists r. split; [assumption|]. rewrite ?andb_true_r. now apply eq_text_true.
    - destruct Ht as [Ht | Ht]; [now elim Htipo|].
      apply tipo_unico_In in Ht. destruct Ht as (r & Hr & Htr).
      exists r. split; [assumption|]. rewrite ?andb_true_r. now apply eq_text_true.
    - destruct Hs as [Hs | Hs]; [now elim Hsub|].
      apply subtipo_lista_In in Hs. destruct Hs as (r & Hr & [Hc | Htr] & Hsr);
        [contradiction|].
      exists r. split; [assumption|]. rewrite ?andb_true_r.
      apply andb_true_iff. split; now apply eq_text_true. }
  destruct Hrow as (r & Hr & Hsat).
  pose proof (filter_not_nil _ df r Hr Hsat) as Hout.
  split; [exact Hout|].
  unfold exibir. destruct (filter (satisfies fs (fun _ => true)) df); [contradiction|].
  discriminate.
Qed.

Lemma offered_options_find_rows_witness :
  sample <> [] /\ In "X" (tipo_opcoes sample) /\ In "S1" (subtipo_opcoes sample "X") /\
  exists out, df_filtrado (E := fragment) sample (mkFilter "X" "S1" "") = Ok out /\ out <> [].
Proof.
  assert (H1 : sample <> []) by discriminate.
  assert (H2 : In "X" (tipo_opcoes sample)) by (right; left; reflexivity).
  assert (H3 : In "S1" (subtipo_opcoes sample "X")) by (right; left; reflexivity).
  split; [exact H1|]. split; [exact H2|]. split; [exact H3|].
  destruct (offered_options_find_rows (E := fragment) sample "X" "S1" H1 H2 H3)
    as (out & Hout & Hne & _).
  exists out. split; assumption.
Defined.

(** ** Sums over groups *)

(** Two tests that exclude each other split a list. *)
Lemma filter_either {A : Type} (p q : A -> bool) (l : list A) :
  (forall x, In x l -> p x = true -> q x = false) ->
  Permutation (filter p l ++ filter q l) (filter (fun x => p x || q x) l).
Proof.
  induction l as [|x l IH]; simpl; intros Hpq; [constructor|].
  assert (IH' := IH (fun y Hy => Hpq y (or_intror Hy))).
  destruct (p x) eqn:Hp; simpl.
  - rewrite (Hpq x (or_introl eq_refl) Hp). now constructor.
  - destruct (q x); [|exact IH'].
    apply Permutation_sym, Permutation_cons_app, Permutation_sym, IH'.
Qed.

Section Partition.

Variable key : row Z -> option string.
Variable df : DataFrame Z.

Lemma rows_of_keys (keys : list string) :
  NoDup keys ->
  Permutation
    (List.concat (map (fun k => filter (fun r => eq_text (key r) k) df) keys))
    (filter (fun r => existsb (eq_text (key r)) keys) df).
Proof.
  induction keys as [|k keys IH]; simpl; intros Hnd.
  - rewrite filter_false. constructor.
  - inversion Hnd as [|? ? Hk Hks]; subst.
    eapply Permutation_trans; [apply Permutation_app_head, IH, Hks|].
    apply filter_either. intros r _ Hr. apply eq_text_true in Hr.
    destruct (existsb (eq_text (key r)) keys) eqn:Hex; [|reflexivity].
    apply existsb_exists in Hex. destruct Hex as (k' & Hk' & Heq).
    apply eq_text_true in Heq. rewrite Hr in Heq. injection Heq as <-. contradiction.
Qed.

Lemma groupby_groups_Permutation :
  Permutation (List.concat (map snd (groupby_groups key df))) (filter (has_key key) df).
Proof.
  unfold groupby_groups. rewrite map_map. simpl.
  eapply Permutation_trans.
  - apply rows_of_keys, (Permutation_NoDup (StringSort.Permuted_sort _)), unique_NoDup.
  - erewrite filter_ext_in; [apply Permutation_refl|]. intros r Hr. unfold has_key.
    destruct (key r) as [k|] eqn:Hk; simpl.
    + apply existsb_exists. exists k. split; [|apply String.eqb_refl].
      apply sorted_In, unique_In, dropna_text_In, in_map_iff. eauto.
    + destruct (existsb _ _) eqn:Hex; [|reflexivity].
      apply existsb_exists in Hex. destruct Hex as (k' & _ & Hf). discriminate.
Qed.

Lemma groupby_sum_groups :
  groupby_sum key df
  = map (fun g => (fst g, sum_int64 (map Quantidade (snd g)))) (groupby_groups key df).
Proof. unfold groupby_sum, groupby_groups. now rewrite map_map. Qed.

Lemma groupby_sum_total :
  sum_int64 (map snd (groupby_sum key df)) = total_cameras (filter (has_key key) df).
Proof.
  rewrite groupby_sum_groups, map_map. simpl. unfold total_cameras.
  rewrite !sum_int64_Zsum.
  rewrite (map_ext _ (fun g => wrap64 (Zsum (map Quantidade (snd g)))))
    by (intros g; apply sum_int64_Zsum).
  rewrite (wrap64_Zsum_wrap (fun g => Zsum (map Quantidade (snd g)))).
  rewrite <- (map_map snd (fun l => Zsum (map Quantidade l))), Zsum_concat.
  f_equal. apply Zsum_Permutation, Permutation_map, groupby_groups_Permutation.
Qed.

End Partition.

Lemma filtered_rows_complete
  {E : ReEngine} (floatify : string -> option float64) (file : option sheet)
  (df out : DataFrame Z) (fs : FilterState) :
  carregar_dados floatify file = Ok df ->
  df_filtrado df fs = Ok out ->
  forall r, In r out -> has_key Subtipo r = true /\ has_key Locais r = true.
Proof.
  intros Hload Hout r Hr.
  apply df_filtrado_Ok in Hout. destruct Hout as (found & _ & ->).
  apply filter_In in Hr. destruct Hr as [Hr _].
  pose proof (carregar_dados_Ok floatify file df Hload) as (sh & -> & _).
  apply (carregar_dados_In floatify sh df r Hload) in Hr.
  destruct Hr as (x & q & _ & _ & Hs & Hl & ->). now split.
Qed.

Lemma filter_all {A : Type} (p : A -> bool) (l : list A) :
  (forall x, In x l -> p x = true) -> filter p l = l.
Proof. intros H. apply forallb_filter_id, forallb_forall, H. Qed.

(** X11: the charts account for every camera.  On any filtered frame the
    slices of the subcategory pie, the sums by location behind the
    top-10 view and the totals in the titles of the detail table each
    add up to the total indicator; the bars by category add up to the
    total of the records that have a category.  All sums are int64. *)
Theorem chart_sums_match_total
  {E : ReEngine} (floatify : string -> option float64) (file : option sheet)
  (df out : DataFrame Z) (fs : FilterState) :
  carregar_dados floatify file = Ok df ->
  df_filtrado df fs = Ok out ->
  sum_int64 (map snd (df_subtipo_pie out)) = total_cameras out /\
  sum_int64 (map snd (df_locais out)) = total_cameras out /\
  sum_int64 (map exp_total (tabela_detalhada out)) = total_cameras out /\
  sum_int64 (map snd (df_tipo out)) = total_cameras (filter (has_key Tipo) out).
Proof.
  intros Hload Hout.
  pose proof (filtered_rows_complete floatify file df out fs Hload Hout) as Hrows.
  assert (Hsub : filter (has_key Subtipo) out = out)
    by (apply filter_all; intros r Hr; apply Hrows, Hr).
  assert (Hloc : filter (has_key Locais) out = out)
    by (apply filter_all; intros r Hr; apply Hrows, Hr).
  split; [|split; [|split]].
  - unfold df_subtipo_pie. now rewrite groupby_sum_total, Hsub.
  - unfold df_locais.
    rewrite (sum_int64_Permutation _ (map snd (groupby_sum Locais out)))
      by apply Permutation_map, sort_values_desc_Permutation.
    now rewrite groupby_sum_total, Hloc.
  - unfold tabela_detalhada. rewrite map_map. simpl.
    rewrite <- Hsub at 2. rewrite <- groupby_sum_total, groupby_sum_groups, map_map.
    reflexivity.
  - apply groupby_sum_total.
Qed.

Lemma chart_sums_match_total_witness :
  carregar_dados no_text (Some untyped_sheet) = Ok untyped /\
  df_filtrado (E := fragment) untyped todos = Ok untyped /\
  sum_int64 (map snd (df_subtipo_pie untyped)) = total_cameras untyped /\
  sum_int64 (map snd (df_tipo untyped)) = total_cameras (filter (has_key Tipo) untyped).
Proof.
  split; [reflexivity|]. split; [reflexivity|].
  destruct (chart_sums_match_total (E := fragment) no_text (Some untyped_sheet)
              untyped untyped todos eq_refl eq_refl) as (Hpie & _ & _ & Htipo).
  split; assumption.
Defined.

(** ** The top-10 view and the detail table *)

Lemma groupby_sum_length (key : row Z -> option string) (df : DataFrame Z) :
  List.length (groupby_sum key df)
  = List.length (unique (dropna_text (map key df))).
Proof.
  unfold groupby_sum, sorted. rewrite length_map.
  symmetry. apply Permutation_length, StringSort.Permuted_sort.
Qed.

Lemma df_locais_length (df : DataFrame Z) :
  List.length (df_locais df) = total_locais df.
Proof.
  unfold df_locais, total_locais.
  rewrite (Permutation_length (sort_values_desc_Permutation _)).
  apply groupby_sum_length.
Qed.

Lemma df_para_plotar_length (df : DataFrame Z) :
  List.length (df_para_plotar df) = Nat.min 10 (total_locais df).
Proof.
  unfold df_para_plotar, top_n. now rewrite length_firstn, df_locais_length.
Qed.

(** X12: how many bars the top-10 view has.  It shows one bar per distinct
    location up to ten: the number in its title is the smaller of 10 and
    the locations indicator, and when there are at most ten locations
    every one of them is shown. *)
Theorem top_n_count (df : DataFrame Z) :
  List.length (df_para_plotar df) = Nat.min 10 (total_locais df) /\
  ((total_locais df <= 10)%nat ->
   Permutation (df_para_plotar df) (groupby_sum Locais df)).
Proof.
  split; [apply df_para_plotar_length|].
  intros Hle. unfold df_para_plotar, top_n.
  rewrite firstn_all2 by (rewrite df_locais_length; exact Hle).
  apply sort_values_desc_Permutation.
Qed.

Lemma top_n_count_witness :
  (total_locais sample <= 10)%nat /\
  Permutation (df_para_plotar sample) (groupby_sum Locais sample).
Proof.
  assert (H : (total_locais sample <= 10)%nat) by (vm_compute; lia).
  split; [exact H|]. apply (proj2 (top_n_count sample) H).
Defined.

Lemma StronglySorted_map_image {A B : Type} (f : A -> B) (R : B -> B -> Prop)
  (l : list A) :
  StronglySorted (fun a b => R (f a) (f b)) l -> StronglySorted R (map f l).
Proof.
  induction 1 as [|x l Hs IH Hall]; simpl; constructor; [assumption|].
  rewrite Forall_forall in *. intros y Hy. apply in_map_iff in Hy.
  destruct Hy as (a & <- & Ha). now apply Hall.
Qed.

Lemma grupo_ordenado_sorted (grupo : DataFrame Z) :
  StronglySorted (fun a b => Quantidade b <= Quantidade a) (grupo_ordenado grupo).
Proof.
  unfold grupo_ordenado.
  apply (StronglySorted_weaken (fun a b => is_true (RowDescending.leb a b))).
  - intros a b H. now apply Z.leb_le.
  - apply RowSort.StronglySorted_sort. intros a b c.
    unfold RowDescending.leb, is_true. rewrite !Z.leb_le. lia.
Qed.

(** X13: the detail table is a partition of the frame.  Its expanders
    come in ascending order of subcategory with the same names and
    totals as the pie; the lines of each are the records of that
    subcategory, larger quantities first; and taken together the lines
    are the records that have a subcategory, each once. *)
Theorem tabela_detalhada_partition (df : DataFrame Z) :
  map (fun e => (exp_subtipo e, exp_total e)) (tabela_detalhada df) = df_subtipo_pie df /\
  (forall e, In e (tabela_detalhada df) ->
     StronglySorted (fun a b => snd b <= snd a) (exp_linhas e) /\
     Permutation (exp_linhas e)
       (map (fun r => (Locais r, Quantidade r))
            (filter (fun r => eq_text (Subtipo r) (exp_subtipo e)) df))) /\
  Permutation (List.concat (map exp_linhas (tabela_detalhada df)))
    (map (fun r => (Locais r, Quantidade r)) (filter (has_key Subtipo) df)).
Proof.
  split; [|split].
  - unfold tabela_detalhada, df_subtipo_pie.
    now rewrite map_map, groupby_sum_groups.
  - intros e He. unfold tabela_detalhada, groupby_groups in He.
    rewrite map_map in He. apply in_map_iff in He. destruct He as (k & <- & _). simpl.
    split.
    + apply (StronglySorted_map_image (fun r => (Locais r, Quantidade r))
               (fun a b => snd b <= snd a)).
      apply grupo_ordenado_sorted.
    + apply Permutation_map, Permutation_sym, RowSort.Permuted_sort.
  - eapply Permutation_trans;
      [|apply Permutation_map, (groupby_groups_Permutation Subtipo df)].
    unfold tabela_detalhada. rewrite map_map. simpl.
    induction (groupby_groups Subtipo df) as [|g gs IH]; simpl; [constructor|].
    rewrite map_app. apply Permutation_app; [|exact IH].
    apply Permutation_map, Permutation_sym, RowSort.Permuted_sort.
Qed.

(** ** The page as a whole *)

Lemma unique_length (l : list string) : (List.length (unique l) <= List.length l)%nat.
Proof.
  apply NoDup_incl_length; [apply unique_NoDup|].
  intros x Hx. now apply unique_In.
Qed.

Lemma dropna_text_length (l : list (option string)) :
  (List.length (dropna_text l) <= List.length l)%nat.
Proof. induction l as [|[s|] l IH]; simpl; lia. Qed.

Lemma total_locais_bounds (df : DataFrame Z) :
  (total_locais df <= List.length df)%nat /\
  (forall r, In r df -> Locais r <> None -> (1 <= total_locais df)%nat).
Proof.
  unfold total_locais. split.
  - eapply Nat.le_trans; [apply unique_length|].
    eapply Nat.le_trans; [apply dropna_text_length|]. now rewrite length_map.
  - intros r Hr Hl. destruct (Locais r) as [s|] eqn:Hs; [|contradiction].
    assert (Hin : In s (unique (dropna_text (map Locais df)))).
    { apply unique_In, dropna_text_In, in_map_iff. eauto. }
    destruct (unique _); [contradiction | simpl; lia].
Qed.

(** X14: what a run of the script shows when it gets to the page.  The
    warning appears exactly when the filter left nothing.  Otherwise the
    panel's third indicator is always filled, with a present location
    name and the largest quantity of the frame; the locations indicator
    lies between 1 and the number of records; and with a subcategory
    chosen the chart is the top-10 view, whose title counts its bars and
    whose bars are all locations of records of that subcategory. *)
Theorem dashboard_page
  {E : ReEngine} (floatify : string -> option float64) (file : option sheet)
  (fs : FilterState) (pg : pagina) :
  dashboard floatify file fs = Ok pg ->
  exists df out,
    carregar_dados floatify file = Ok df /\ df_filtrado df fs = Ok out /\
    (pg = Aviso <-> out = []) /\
    (out <> [] ->
     exists k g t, pg = Painel k g t /\
       (exists r, In r out /\ kpi_maior k = Some (Locais r, Quantidade r) /\
          Locais r <> None /\ forall x, In x out -> Quantidade x <= Quantidade r) /\
       (1 <= kpi_locais k <= List.length out)%nat /\
       (subtipo_opcao fs <> "Todos" ->
        exists barras,
          g = VistaDetalhada (subtipo_opcao fs) (List.length barras) barras /\
          List.length barras = Nat.min 10 (kpi_locais k) /\
          forall l v, In (l, v) barras ->
            exists r, In r out /\ Locais r = Some l /\
              Subtipo r = Some (subtipo_opcao fs))).
Proof.
  unfold dashboard. intros Hpg.
  destruct (carregar_dados floatify file) as [df| |] eqn:Hload; try discriminate.
  destruct (df_filtrado df fs) as [out| |] eqn:Hout; try discriminate.
  injection Hpg as <-. exists df, out. split; [reflexivity|]. split; [exact Hout|].
  pose proof (filtered_rows_complete floatify file df out fs Hload Hout) as Hrows.
  split.
  - unfold exibir. destruct out; simpl; split; congruence.
  - intros Hne.
    assert (Hnd : NoDup (map index out)).
    { apply (df_filtrado_NoDup df out fs); [|assumption].
      now apply (carregar_dados_NoDup floatify file). }
    destruct (first_max_lookup out Hnd Hne) as (pre & r & post & Hm & Heq & Hpre & Hpost).
    assert (Hr : In r out) by (rewrite Heq; apply in_elt).
    assert (Hemp : empty out = false) by (destruct out; [contradiction | reflexivity]).
    unfold exibir. rewrite Hemp.
    eexists _, _, _. split; [reflexivity|]. simpl kpi_maior. simpl kpi_locais.
    split; [|split].
    + exists r. rewrite Hm. simpl. split; [assumption|]. split; [reflexivity|].
      split; [apply present_Some, Hrows, Hr|].
      intros x Hx. rewrite Heq in Hx. apply in_app_or in Hx.
      destruct Hx as [Hx | [<- | Hx]]; [apply Hpre in Hx; lia | lia | now apply Hpost].
    + destruct (total_locais_bounds out) as [Hle Hge]. split; [|exact Hle].
      apply (Hge r Hr). apply present_Some, Hrows, Hr.
    + intros Hsub. apply String.eqb_neq in Hsub. rewrite Hsub. simpl.
      exists (df_para_plotar out). split; [reflexivity|].
      split; [apply df_para_plotar_length|].
      intros l v Hbar. unfold df_para_plotar in Hbar.
      assert (Hall : In (l, v) (df_locais out)).
      { rewrite <- (firstn_skipn top_n (df_locais out)). apply in_or_app. now left. }
      clear Hbar. rename Hall into Hbar. unfold df_locais in Hbar.
      apply (Permutation_in _ (sort_values_desc_Permutation _)) in Hbar.
      apply groupby_sum_In in Hbar. destruct Hbar as ((x & Hx & Hl) & _).
      exists x. split; [assumption|]. split; [assumption|].
      apply df_filtrado_Ok in Hout. destruct Hout as (found & _ & Hfilter).
      rewrite Hfilter in Hx. apply filter_In in Hx. destruct Hx as [_ Hsat].
      unfold satisfies, subcategory_ok in Hsat. rewrite Hsub in Hsat.
      rewrite !andb_true_iff in Hsat. simpl in Hsat.
      apply eq_text_true. tauto.
Qed.

Lemma dashboard_page_witness :
  dashboard (E := fragment) no_text (Some sample_sheet) (mkFilter "Todos" "S1" "")
  = Ok (exibir [ mkRow 0%nat (Some "X") (Some "S1") (Some "L1") 3;
                 mkRow 1%nat (Some "X") (Some "S1") (Some "L2") 7 ]
               (mkFilter "Todos" "S1" "")) /\
  exists df out,
    carregar_dados no_text (Some sample_sheet) = Ok df /\
    df_filtrado (E := fragment) df (mkFilter "Todos" "S1" "") = Ok out.
Proof.
  split; [reflexivity|].
  destruct (dashboard_page (E := fragment) no_text (Some sample_sheet)
              (mkFilter "Todos" "S1" "") _ eq_refl) as (df & out & Hdf & Hout & _).
  exists df, out. split; assumption.
Defined.
